(** * Roberto AI voice assistant: the widget's session logic and the relay route

    A shallow embedding of [src/RobertoAI.tsx] (the React component
    [RobertoAI]: [speakResponse], [getAIResponse], [recognition.onresult],
    [recognition.onerror], [toggleListening], [closeOverlay]) and of the
    Express route [app.post('/api/chat')] of the backend, followed by the
    properties of the voice-session loop.

    JavaScript strings are sequences of UTF-16 code units; the component's
    React state and refs are one record threaded through the handlers; what a
    handler does to the outside world (console, network, speech synthesis,
    speech recognition) is recorded as a chronological list of effects; an
    exception is an abrupt completion carrying the error's message. *)

From Stdlib Require Import String Ascii List NArith Bool Arith Lia DecimalString.
Import ListNotations.

(* ===================================================================== *)
(** ** JavaScript strings *)
(* ===================================================================== *)

Module JS.

(** A UTF-16 code unit. *)
Definition char := N.

(** A JavaScript string value. *)
Definition str := list char.

(** A source literal (the literals of both files are ASCII). *)
Definition lit (s : string) : str := map N_of_ascii (list_ascii_of_string s).

(** [a === b] on strings. *)
Fixpoint eqb (a b : str) : bool :=
  match a, b with
  | [], [] => true
  | x :: a', y :: b' => N.eqb x y && eqb a' b'
  | _, _ => false
  end.

(** ToBoolean on a string: only the empty string is falsy. *)
Definition truthy (s : str) : bool :=
  match s with [] => false | _ :: _ => true end.

(** [a || b] on strings. *)
Definition or_else (a b : str) : str := if truthy a then a else b.

(** ECMAScript WhiteSpace and LineTerminator code points, the characters
    [String.prototype.trim] strips: TAB, LF, VT, FF, CR, SP, NBSP, U+1680,
    U+2000..U+200A, U+2028, U+2029, U+202F, U+205F, U+3000, U+FEFF. *)
Definition isWhiteSpace (c : char) : bool :=
  ((9 <=? c) && (c <=? 13) || (c =? 32) || (c =? 160) || (c =? 5760)
   || (8192 <=? c) && (c <=? 8202) || (c =? 8232) || (c =? 8233)
   || (c =? 8239) || (c =? 8287) || (c =? 12288) || (c =? 65279))%N.

Fixpoint trimStart (s : str) : str :=
  match s with
  | [] => []
  | c :: rest => if isWhiteSpace c then trimStart rest else s
  end.

Definition trimEnd (s : str) : str := rev (trimStart (rev s)).

(** [s.trim()] *)
Definition trim (s : str) : str := trimEnd (trimStart s).

(** [s.startsWith(prefix)] *)
Fixpoint startsWith (s prefix : str) : bool :=
  match prefix, s with
  | [], _ => true
  | _ :: _, [] => false
  | p :: prefix', c :: s' => N.eqb c p && startsWith s' prefix'
  end.

(** [s.includes(part)] *)
Fixpoint includes (s part : str) : bool :=
  startsWith s part || match s with [] => false | _ :: s' => includes s' part end.

(** ToString of a non-negative integer Number, as a template literal
    [`${n}`] renders it: decimal digits, no leading zero. *)
Definition ofNumber (n : N) : str := lit (NilZero.string_of_uint (N.to_uint n)).

(** The line feed of the escape ["\n"]. *)
Definition LF : str := [10%N].

(** [parts.join('')] *)
Definition join (parts : list str) : str := concat parts.

End JS.

Definition jsstring : Type := JS.str.

(* ===================================================================== *)
(** ** The widget: configuration, platform, state and effects *)
(* ===================================================================== *)

(** The props of [RobertoAI] the session logic reads. *)
Record Props : Type := {
  apiEndpoint : jsstring;
  systemPrompt : jsstring;
  voiceName : jsstring
}.

(** The defaults of the destructured props. *)
Definition defaultProps : Props := {|
  apiEndpoint := JS.lit "http://localhost:3000/api/chat";
  systemPrompt :=
    JS.lit "You are Roberto, a helpful AI assistant. Respond concisely and helpfully.";
  voiceName := []
|}.

(** What the browser offers: [window.SpeechRecognition ||
    window.webkitSpeechRecognition], ['speechSynthesis' in window] and the
    names of [speechSynthesis.getVoices()]. *)
Record Platform : Type := {
  hasSpeechRecognition : bool;
  hasSpeechSynthesis : bool;
  voices : list jsstring
}.

(** The argument of one [fetch]: the URL and the two members of the JSON
    body. Method, headers, mode and credentials are constants of the call. *)
Record Request : Type := {
  url : jsstring;
  message : jsstring;
  bodySystemPrompt : jsstring
}.

(** What a handler does to the world outside the component. *)
Inductive Effect : Type :=
| ConsoleLog (label detail : jsstring)
| ConsoleError (label detail : jsstring)
| Fetch (request : Request)
| SpeechCancel
| SpeechSpeak (text : jsstring) (voice : option jsstring)
| RecognitionStart
| RecognitionStop.

(** [useState] and [useRef] cells of the component, and the [fetch]
    promises that have not settled yet (oldest first): each stands for a
    suspended [recognition.onresult] call waiting in [await getAIResponse]. *)
Record State : Type := {
  isListening : bool;
  responseText : jsstring;
  isProcessing : bool;
  recognitionRef : bool;        (* recognitionRef.current is a recognition object *)
  recognitionActive : bool;
  requestInFlightRef : bool;
  outstanding : list Request
}.

Definition setIsListening (b : bool) (s : State) : State :=
  {| isListening := b; responseText := responseText s;
     isProcessing := isProcessing s; recognitionRef := recognitionRef s;
     recognitionActive := recognitionActive s;
     requestInFlightRef := requestInFlightRef s; outstanding := outstanding s |}.

Definition setResponseText (f : jsstring -> jsstring) (s : State) : State :=
  {| isListening := isListening s; responseText := f (responseText s);
     isProcessing := isProcessing s; recognitionRef := recognitionRef s;
     recognitionActive := recognitionActive s;
     requestInFlightRef := requestInFlightRef s; outstanding := outstanding s |}.

Definition setIsProcessing (b : bool) (s : State) : State :=
  {| isListening := isListening s; responseText := responseText s;
     isProcessing := b; recognitionRef := recognitionRef s;
     recognitionActive := recognitionActive s;
     requestInFlightRef := requestInFlightRef s; outstanding := outstanding s |}.

Definition setRecognitionActive (b : bool) (s : State) : State :=
  {| isListening := isListening s; responseText := responseText s;
     isProcessing := isProcessing s; recognitionRef := recognitionRef s;
     recognitionActive := b;
     requestInFlightRef := requestInFlightRef s; outstanding := outstanding s |}.

Definition setRequestInFlight (b : bool) (s : State) : State :=
  {| isListening := isListening s; responseText := responseText s;
     isProcessing := isProcessing s; recognitionRef := recognitionRef s;
     recognitionActive := recognitionActive s;
     requestInFlightRef := b; outstanding := outstanding s |}.

Definition setOutstanding (f : list Request -> list Request) (s : State) : State :=
  {| isListening := isListening s; responseText := responseText s;
     isProcessing := isProcessing s; recognitionRef := recognitionRef s;
     recognitionActive := recognitionActive s;
     requestInFlightRef := requestInFlightRef s; outstanding := f (outstanding s) |}.

(* ===================================================================== *)
(** ** Handlers: state, effects and exceptions *)
(* ===================================================================== *)

(** How a piece of code ends: normally with a value, or abruptly with a
    thrown error (kept by its [message]). *)
Inductive Completion (A : Type) : Type :=
| Normal (a : A)
| Abrupt (message : jsstring).

Arguments Normal {A} a.
Arguments Abrupt {A} message.

(** A run of handler code from a state: its completion, the state it
    leaves and the effects it performed, in order. *)
Definition Run (A : Type) : Type := (Completion A * State * list Effect)%type.

Definition Handler (A : Type) : Type := State -> Run A.

Definition ret {A} (a : A) : Handler A := fun s => (Normal a, s, []).

Definition throw {A} (message : jsstring) : Handler A :=
  fun s => (Abrupt message, s, []).

Definition bind {A B} (m : Handler A) (k : A -> Handler B) : Handler B :=
  fun s =>
    match m s with
    | (Normal a, s1, e1) => let '(c, s2, e2) := k a s1 in (c, s2, e1 ++ e2)
    | (Abrupt msg, s1, e1) => (Abrupt msg, s1, e1)
    end.

(** [try { body } catch (error) { handler }] *)
Definition try_catch {A} (body : Handler A) (handler : jsstring -> Handler A)
  : Handler A :=
  fun s =>
    match body s with
    | (Normal a, s1, e1) => (Normal a, s1, e1)
    | (Abrupt msg, s1, e1) =>
        let '(c, s2, e2) := handler msg s1 in (c, s2, e1 ++ e2)
    end.

(** [try { body } finally { cleanup }]: the cleanup runs on both exits and
    the completion of the body stands unless the cleanup itself throws. *)
Definition try_finally {A} (body : Handler A) (cleanup : Handler unit)
  : Handler A :=
  fun s =>
    let '(c, s1, e1) := body s in
    match cleanup s1 with
    | (Normal _, s2, e2) => (c, s2, e1 ++ e2)
    | (Abrupt msg, s2, e2) => (Abrupt msg, s2, e1 ++ e2)
    end.

Definition gets {A} (f : State -> A) : Handler A := fun s => (Normal (f s), s, []).

Definition modify (f : State -> State) : Handler unit :=
  fun s => (Normal tt, f s, []).

Definition emit (e : Effect) : Handler unit := fun s => (Normal tt, s, [e]).

Declare Scope handler_scope.
Delimit Scope handler_scope with handler.
Notation "x <- m ;; k" := (bind m (fun x => k))
  (at level 61, m at next level, right associativity) : handler_scope.
Notation "m ;; k" := (bind m (fun _ => k))
  (at level 61, right associativity) : handler_scope.
Open Scope handler_scope.

Definition completion {A} (r : Run A) : Completion A := fst (fst r).
Definition final {A} (r : Run A) : State := snd (fst r).
Definition effects {A} (r : Run A) : list Effect := snd r.

(* ===================================================================== *)
(** ** The network as the widget sees it *)
(* ===================================================================== *)

(** The body of a response, by what reading it gives. The relay's contract
    is [{"response": string}]: in [JsonValue] the member [response] is
    that string, [None] when the parsed value has no such member or a falsy
    one that is not a string ([null], [false], [0]), all of which
    [data.response || ...] treats alike. [data] is untyped, so the member
    may also be a truthy value of another type (a number, [true], an array,
    an object): [JsonOther], which keeps the value by its [rendering], the
    string ToString makes of it. A template literal and the text of an
    utterance, the two places the reply ends in, both apply ToString. *)
Inductive Body : Type :=
| Unparsable (message : jsstring)   (* response.json() rejects: SyntaxError *)
| JsonNull (message : jsstring)     (* parses to null: reading a member throws *)
| JsonValue (response : option jsstring)
| JsonOther (rendering : jsstring).

(** What [getAIResponse] resolves to: a string, or the truthy member of
    another type it passes on as it is, kept by its rendering. *)
Inductive Value : Type :=
| Str (text : jsstring)
| NonString (rendering : jsstring).

(** ToString, as [`${value}`] and [new SpeechSynthesisUtterance(value)]
    apply it. *)
Definition toString (value : Value) : jsstring :=
  match value with
  | Str text => text
  | NonString rendering => rendering
  end.

(** [typeof value === 'string'] *)
Definition isString (value : Value) : bool :=
  match value with
  | Str _ => true
  | NonString _ => false
  end.

(** How one [fetch] settles. *)
Inductive FetchOutcome : Type :=
| Rejected (message : jsstring)     (* network failure: the promise rejects *)
| Responded (status : N) (body : Body).

(** [response.ok]: the status is in the range 200-299. *)
Definition ok (status : N) : bool := ((200 <=? status) && (status <=? 299))%N.

(** One [SpeechRecognitionResult], by its first alternative. *)
Record Segment : Type := {
  transcript : jsstring;
  isFinal : bool
}.

(* ===================================================================== *)
(** ** The component *)
(* ===================================================================== *)

Definition fallbackReply : jsstring := JS.lit "I couldn't process that request.".

Definition apologyPrefix : jsstring :=
  JS.lit "Sorry, I'm having trouble connecting to the AI service. Error: ".

Definition statusMessage (status : N) : jsstring :=
  JS.lit "API returned status " ++ JS.ofNumber status.

Section Component.

Variable props : Props.
Variable platform : Platform.

(** [speakResponse(text)] *)
Definition speakResponse (text : jsstring) : Handler unit :=
  if hasSpeechSynthesis platform then
    emit SpeechCancel ;;
    let voice :=
      if JS.truthy (voiceName props)
      then find (fun v => JS.eqb v (voiceName props)) (voices platform)
      else None in
    emit (SpeechSpeak text voice)
  else ret tt.

(** The endpoint [getAIResponse] hands to [fetch]. *)
Definition endpointOf (apiEndpoint : jsstring) : jsstring :=
  if negb (JS.startsWith apiEndpoint (JS.lit "http://"))
     && negb (JS.startsWith apiEndpoint (JS.lit "https://"))
  then JS.lit "https://" ++ apiEndpoint
  else apiEndpoint.

(** [getAIResponse(text)] up to its first suspension: either it has
    returned a value already ([inl]), or it waits in [await fetch(...)] for
    the request it has just issued ([inr]). *)
Definition getAIResponse_call (text : jsstring) : Handler (jsstring + Request) :=
  if negb (JS.truthy (JS.trim text)) then ret (inl [])
  else
    modify (setIsProcessing true) ;;
    let endpoint := endpointOf (apiEndpoint props) in
    emit (ConsoleLog (JS.lit "Calling API endpoint:") endpoint) ;;
    let request :=
      {| url := endpoint; message := text;
         bodySystemPrompt := systemPrompt props |} in
    emit (Fetch request) ;;
    ret (inr request).

(** The rest of the [try] block of [getAIResponse], from the settled
    [fetch] to the [return]. The two awaits of this part (the response, then
    its body) are taken in one step: the function touches no state between
    them. *)
Definition getAIResponse_body (o : FetchOutcome) : Handler Value :=
  match o with
  | Rejected msg => throw msg
  | Responded status body =>
      if negb (ok status) then
        (* errorData = await response.json().catch(() => ({})) *)
        emit (ConsoleError (JS.lit "API Error:") []) ;;
        throw (statusMessage status)
      else
        match body with
        | Unparsable msg => throw msg
        | JsonNull msg => throw msg
        | JsonValue None => ret (Str fallbackReply)
        | JsonValue (Some text) => ret (Str (JS.or_else text fallbackReply))
        | JsonOther rendering => ret (NonString rendering)
        end
  end.

(** [getAIResponse] from the settled [fetch] on: [try], [catch], [finally]. *)
Definition getAIResponse_resume (o : FetchOutcome) : Handler Value :=
  try_finally
    (try_catch
       (getAIResponse_body o)
       (fun error =>
          emit (ConsoleError (JS.lit "Error getting AI response:") error) ;;
          ret (Str (apologyPrefix ++ error))))
    (modify (setIsProcessing false)).

Definition aiPrefix : jsstring := JS.LF ++ JS.LF ++ JS.lit "AI: ".

(** The [try { ... } finally { ... }] of [recognition.onresult], given the
    code that delivers the awaited value of [getAIResponse(transcript)]. *)
Definition onresult_reply (awaited : Handler Value) : Handler unit :=
  try_finally
    (aiResponse <- awaited ;;
     modify (setResponseText (fun prev => prev ++ aiPrefix ++ toString aiResponse)) ;;
     speakResponse (toString aiResponse))
    (modify (setRequestInFlight false)).

(** [event.results[event.results.length - 1]]; reading [.isFinal] of the
    [undefined] that an empty list gives throws a TypeError. *)
Definition lastResult (results : list Segment) : Handler Segment :=
  match rev results with
  | last :: _ => ret last
  | [] => throw (JS.lit "Cannot read properties of undefined (reading 'isFinal')")
  end.

(** [recognition.onresult], up to the point where it is suspended in
    [await getAIResponse(transcript)] on a pending [fetch]. When
    [getAIResponse] returns without a request the awaited promise is already
    resolved and the handler runs to its end before any other event. The
    [try] of the handler opens before the call; [getAIResponse_call] has no
    statement that throws, so the [finally] is attached where the awaited
    value arrives ([onresult_reply]). *)
Definition onresult (results : list Segment) : Handler unit :=
  let text := JS.join (map transcript results) in
  modify (setResponseText (fun _ => text)) ;;
  last <- lastResult results ;;
  inFlight <- gets requestInFlightRef ;;
  if isFinal last && negb inFlight then
    modify (setRequestInFlight true) ;;
    called <- getAIResponse_call text ;;
    match called with
    | inl aiResponse => onresult_reply (ret (Str aiResponse))
    | inr request => modify (setOutstanding (fun l => l ++ [request]))
    end
  else ret tt.

(** Removes the [i]-th element. *)
Fixpoint remove_nth {A} (i : nat) (l : list A) : list A :=
  match l, i with
  | [], _ => []
  | _ :: l', O => l'
  | x :: l', S i' => x :: remove_nth i' l'
  end.

(** The [i]-th pending [fetch] settles: the handler suspended on it goes on. *)
Definition onsettled (i : nat) (o : FetchOutcome) : Handler unit :=
  modify (setOutstanding (remove_nth i)) ;;
  onresult_reply (getAIResponse_resume o).

(** [recognition.onerror] *)
Definition onerror (error : jsstring) : Handler unit :=
  emit (ConsoleError (JS.lit "Speech recognition error") error) ;;
  modify (setIsListening false) ;;
  modify (setIsProcessing false).

(** [toggleListening] *)
Definition toggleListening : Handler unit :=
  recognition <- gets recognitionRef ;;
  if negb recognition then
    emit (ConsoleError (JS.lit "Speech recognition not supported") [])
  else
    listening <- gets isListening ;;
    if listening then
      emit RecognitionStop ;;
      modify (setRecognitionActive false) ;;
      modify (setIsListening false)
    else
      modify (setRequestInFlight false) ;;
      modify (setResponseText (fun _ => JS.lit "Listening...")) ;;
      emit RecognitionStart ;;
      modify (setRecognitionActive true) ;;
      modify (setIsListening true).

(** [closeOverlay] *)
Definition closeOverlay : Handler unit :=
  listening <- gets isListening ;;
  recognition <- gets recognitionRef ;;
  (if listening && recognition then
     emit RecognitionStop ;;
     modify (setRecognitionActive false)
   else ret tt) ;;
  modify (setIsListening false).

(** The component after its first render and the effect that creates the
    recognition object when the platform has one. *)
Definition mount : State := {|
  isListening := false;
  responseText := [];
  isProcessing := false;
  recognitionRef := hasSpeechRecognition platform;
  recognitionActive := false;
  requestInFlightRef := false;
  outstanding := []
|}.

(** What can happen to a mounted component: the user toggles (the button,
    or the Space key, which also works while the button is disabled), the
    user closes the overlay, the recognition object reports results or an
    error, a pending [fetch] settles. *)
Inductive Event : Type :=
| Toggle
| Close
| Result (results : list Segment)
| RecognitionError (error : jsstring)
| Settled (i : nat) (o : FetchOutcome).

(** The handler an event runs; [None] when the event cannot occur (no
    recognition object to report anything, no such pending request). *)
Definition dispatch (ev : Event) (s : State) : option (Run unit) :=
  match ev with
  | Toggle => Some (toggleListening s)
  | Close => Some (closeOverlay s)
  | Result results =>
      if recognitionRef s then Some (onresult results s) else None
  | RecognitionError error =>
      if recognitionRef s then Some (onerror error s) else None
  | Settled i o =>
      match nth_error (outstanding s) i with
      | Some _ => Some (onsettled i o s)
      | None => None
      end
  end.

(** A sequence of events from a state: the final state and all effects. An
    exception that leaves a handler is reported by the browser and the page
    goes on from the state the handler left. *)
Fixpoint run (evs : list Event) (s : State) : option (State * list Effect) :=
  match evs with
  | [] => Some (s, [])
  | ev :: rest =>
      match dispatch ev s with
      | None => None
      | Some (_, s1, e1) =>
          match run rest s1 with
          | None => None
          | Some (s2, e2) => Some (s2, e1 ++ e2)
          end
      end
  end.

End Component.

(* ===================================================================== *)
(** ** Observations on runs *)
(* ===================================================================== *)

(** The requests handed to [fetch], in order. *)
Fixpoint fetched (effs : list Effect) : list Request :=
  match effs with
  | [] => []
  | Fetch request :: rest => request :: fetched rest
  | _ :: rest => fetched rest
  end.

(** The texts handed to [speechSynthesis.speak], in order. *)
Fixpoint spoken (effs : list Effect) : list jsstring :=
  match effs with
  | [] => []
  | SpeechSpeak text _ :: rest => text :: spoken rest
  | _ :: rest => spoken rest
  end.

(** How often capture was started and stopped. *)
Definition starts (effs : list Effect) : nat :=
  length (filter (fun e => match e with RecognitionStart => true | _ => false end) effs).

Definition stops (effs : list Effect) : nat :=
  length (filter (fun e => match e with RecognitionStop => true | _ => false end) effs).

(** The session is idle: neither listening nor processing. *)
Definition idle (s : State) : bool := negb (isListening s) && negb (isProcessing s).

(** A handler run brought something before the user: the text the overlay
    renders ([responseText], its only text besides the two fixed status
    labels) changed, or something was spoken. The console is not part of
    the page. *)
Definition shownToUser (before : State) (r : Run unit) : Prop :=
  responseText (final r) <> responseText before \/ spoken (effects r) <> [].

(** The latch discipline of [requestInFlightRef]: at most one [fetch] is
    pending, and none while the flag is clear. *)
Definition singleFlight (s : State) : Prop :=
  length (outstanding s) <= 1 /\
  (requestInFlightRef s = false -> outstanding s = []).

(** No event of the sequence starts a new listening session (a [Toggle] in
    a state that is not listening) while a [fetch] is still pending. *)
Fixpoint restartsOnlyWhenSettled (props : Props) (platform : Platform)
    (evs : list Event) (s : State) : bool :=
  match evs with
  | [] => true
  | ev :: rest =>
      match ev with
      | Toggle => isListening s || match outstanding s with [] => true | _ => false end
      | _ => true
      end
      && match dispatch props platform ev s with
         | Some (_, s1, _) => restartsOnlyWhenSettled props platform rest s1
         | None => true
         end
  end.

(* ===================================================================== *)
(** ** The relay backend: POST /api/chat *)
(* ===================================================================== *)

Module Relay.

(** [req.body] after [express.json()]: the two members the route reads. *)
Record ChatRequest : Type := {
  message : option jsstring;
  systemPrompt : option jsstring
}.

(** The body of the provider's answer, by what [response.json()] gives;
    [content] is [data.choices?.[0]?.message?.content] when it is a string. *)
Inductive UpstreamBody : Type :=
| Unparsable (message : jsstring)
| JsonNull (message : jsstring)
| JsonValue (content : option jsstring).

(** How the [fetch] to the provider settles. *)
Inductive Upstream : Type :=
| Rejected (message : jsstring)
| Responded (status : N) (body : UpstreamBody).

Inductive ReplyBody : Type :=
| ErrorJson (error : jsstring)          (* {"error": ...} *)
| ResponseJson (response : jsstring).   (* {"response": ...} *)

Record Reply : Type := {
  status : N;
  body : ReplyBody
}.

Definition member_or_empty (m : option jsstring) : jsstring :=
  match m with Some v => v | None => [] end.

(** The [try] block of the route: the reply it sends, or the error thrown. *)
Definition chat_try (req : ChatRequest) (upstream : Upstream) : Completion Reply :=
  if negb (JS.truthy (member_or_empty (message req))) then
    Normal {| status := 400; body := ErrorJson (JS.lit "Message is required") |}
  else
    match upstream with
    | Rejected msg => Abrupt msg
    | Responded upstreamStatus upstreamBody =>
        if negb (ok upstreamStatus) then
          (* const errorData = await response.json() *)
          match upstreamBody with
          | Unparsable msg => Abrupt msg
          | JsonNull _ | JsonValue _ =>
              Normal {| status := upstreamStatus;
                        body := ErrorJson (JS.lit "Failed to get response from OpenAI") |}
          end
        else
          match upstreamBody with
          | Unparsable msg => Abrupt msg
          | JsonNull msg => Abrupt msg
          | JsonValue content =>
              Normal {| status := 200;
                        body := ResponseJson
                                  (JS.or_else (member_or_empty content) fallbackReply) |}
          end
    end.

(** [app.post('/api/chat', ...)]: the [try] block, and the [catch] that
    answers 500. *)
Definition chat (req : ChatRequest) (upstream : Upstream) : Reply :=
  match chat_try req upstream with
  | Normal reply => reply
  | Abrupt _ =>
      {| status := 500; body := ErrorJson (JS.lit "Internal server error") |}
  end.

(** The reply has the shape [{"error": string}]. *)
Definition isErrorReply (r : Reply) : bool :=
  match body r with ErrorJson _ => true | ResponseJson _ => false end.

End Relay.

(* ===================================================================== *)
(** ** Concrete sessions *)
(* ===================================================================== *)

Definition browser : Platform :=
  {| hasSpeechRecognition := true; hasSpeechSynthesis := true; voices := [] |}.

Definition browserWithoutRecognition : Platform :=
  {| hasSpeechRecognition := false; hasSpeechSynthesis := true; voices := [] |}.

Definition finalSegment (text : string) : Segment :=
  {| transcript := JS.lit text; isFinal := true |}.

Definition requestFor (text : string) : Request :=
  {| url := JS.lit "http://localhost:3000/api/chat";
     message := JS.lit text;
     bodySystemPrompt := systemPrompt defaultProps |}.

Definition answered (text : string) : FetchOutcome :=
  Responded 200 (JsonValue (Some (JS.lit text))).

(** A first session sends "a" and is stopped before the reply; a second
    session is started. *)
Definition restartBeforeReply : list Event :=
  [Toggle; Result [finalSegment "a"]; Toggle; Toggle].

(** In the second session: "b" is finalized, the reply of the first
    session arrives, "c" is finalized. *)
Definition secondSession : list Event :=
  [Result [finalSegment "b"];
   Settled 0 (answered "A");
   Result [finalSegment "b"; finalSegment "c"]].

(** The state of a session that has just been started. *)
Definition listening : State := {|
  isListening := true;
  responseText := JS.lit "Listening...";
  isProcessing := false;
  recognitionRef := true;
  recognitionActive := true;
  requestInFlightRef := false;
  outstanding := []
|}.

(** The state of a session that has sent "hi" and waits for the reply. *)
Definition awaitingReply : State := {|
  isListening := true;
  responseText := JS.lit "hi";
  isProcessing := true;
  recognitionRef := true;
  recognitionActive := true;
  requestInFlightRef := true;
  outstanding := [requestFor "hi"]
|}.

(** The state of the second session right after it has been started: the
    request of the first session is still pending and the flag is clear. *)
Definition restarted : State := {|
  isListening := true;
  responseText := JS.lit "Listening...";
  isProcessing := true;
  recognitionRef := true;
  recognitionActive := true;
  requestInFlightRef := false;
  outstanding := [requestFor "a"]
|}.

(** An error page of a gateway in front of the provider: not JSON. *)
Definition gatewayError : Relay.Upstream :=
  Relay.Responded 503 (Relay.Unparsable (JS.lit "Unexpected token '<'")).

Definition helloRequest : Relay.ChatRequest :=
  {| Relay.message := Some (JS.lit "hello"); Relay.systemPrompt := None |}.

(** One exchange: start, say "hi", receive "Hi there". *)
Definition oneExchange : list Event :=
  [Toggle; Result [finalSegment "hi"]; Settled 0 (answered "Hi there")].

(** A session that is listening and has sent "hi". *)
Definition startAndAsk : list Event := [Toggle; Result [finalSegment "hi"]].

(** A widget configured with a voice, on a platform that has it. *)
Definition samanthaProps : Props := {|
  apiEndpoint := JS.lit "my-relay.example.com/api/chat";
  systemPrompt := systemPrompt defaultProps;
  voiceName := JS.lit "Samantha"
|}.

Definition browserWithVoices : Platform :=
  {| hasSpeechRecognition := true; hasSpeechSynthesis := true;
     voices := [JS.lit "Alex"; JS.lit "Samantha"] |}.

(* ===================================================================== *)
(** ** Further parts of the component, and the two programs together *)
(* ===================================================================== *)

(** The cleanup of the effect that created the recognition object, run when
    the component is torn down:
    [if (recognitionRef.current) recognitionRef.current.stop()]. *)
Definition unmount : Handler unit :=
  recognition <- gets recognitionRef ;;
  if recognition then emit RecognitionStop else ret tt.

(** The edges [getPositionStyles] anchors the widget to ([position: 'fixed']
    and [zIndex: 1000] are in every result). *)
Record PositionStyles : Type := {
  cssTop : option jsstring;
  cssBottom : option jsstring;
  cssLeft : option jsstring;
  cssRight : option jsstring
}.

Definition twoRem : jsstring := JS.lit "2rem".

(** [getPositionStyles], as a function of the [position] prop. *)
Definition getPositionStyles (position : jsstring) : PositionStyles :=
  if JS.eqb position (JS.lit "bottom-left") then
    {| cssTop := None; cssBottom := Some twoRem; cssLeft := Some twoRem; cssRight := None |}
  else if JS.eqb position (JS.lit "top-right") then
    {| cssTop := Some twoRem; cssBottom := None; cssLeft := None; cssRight := Some twoRem |}
  else if JS.eqb position (JS.lit "top-left") then
    {| cssTop := Some twoRem; cssBottom := None; cssLeft := Some twoRem; cssRight := None |}
  else
    {| cssTop := None; cssBottom := Some twoRem; cssLeft := None; cssRight := Some twoRem |}.

(** The options of the [position] control. *)
Definition positionOptions : list jsstring :=
  [JS.lit "bottom-right"; JS.lit "bottom-left"; JS.lit "top-right"; JS.lit "top-left"].

(** How many events of a sequence are results whose last segment is final. *)
Fixpoint finalResults (evs : list Event) : nat :=
  match evs with
  | [] => 0
  | Result results :: rest =>
      match rev results with
      | last :: _ => Nat.b2n (isFinal last)
      | [] => 0
      end + finalResults rest
  | _ :: rest => finalResults rest
  end.

(** Every [speechSynthesis.speak] comes right after a
    [speechSynthesis.cancel]. *)
Definition cancelsBeforeSpeaking (effs : list Effect) : Prop :=
  forall before text voice after,
    effs = before ++ SpeechSpeak text voice :: after ->
    exists earlier, before = earlier ++ [SpeechCancel].



(** What handling one event amounts to, case by case: the relation the
    handlers are shown to satisfy ([dispatch_Handled]), used to reason about
    whole sessions one event at a time. *)
Inductive Handled (props : Props) (platform : Platform) (s : State)
  : Event -> Run unit -> Prop :=
| handled_unsupported :
    recognitionRef s = false ->
    Handled props platform s Toggle
      (Normal tt, s, [ConsoleError (JS.lit "Speech recognition not supported") []])
| handled_stop :
    recognitionRef s = true ->
    isListening s = true ->
    Handled props platform s Toggle
      (Normal tt, setIsListening false (setRecognitionActive false s),
       [RecognitionStop])
| handled_start :
    recognitionRef s = true ->
    isListening s = false ->
    Handled props platform s Toggle
      (Normal tt,
       setIsListening true
         (setRecognitionActive true
            (setResponseText (fun _ => JS.lit "Listening...")
               (setRequestInFlight false s))),
       [RecognitionStart])
| handled_close_listening :
    isListening s = true ->
    recognitionRef s = true ->
    Handled props platform s Close
      (Normal tt, setIsListening false (setRecognitionActive false s),
       [RecognitionStop])
| handled_close_other :
    isListening s && recognitionRef s = false ->
    Handled props platform s Close (Normal tt, setIsListening false s, [])
| handled_no_results :
    recognitionRef s = true ->
    Handled props platform s (Result [])
      (Abrupt (JS.lit "Cannot read properties of undefined (reading 'isFinal')"),
       setResponseText (fun _ => []) s, [])
| handled_display (earlier : list Segment) (last : Segment) :
    recognitionRef s = true ->
    isFinal last && negb (requestInFlightRef s) = false ->
    Handled props platform s (Result (earlier ++ [last]))
      (Normal tt,
       setResponseText (fun _ => JS.join (map transcript (earlier ++ [last]))) s,
       [])
| handled_blank (earlier : list Segment) (last : Segment) :
    recognitionRef s = true ->
    isFinal last = true ->
    requestInFlightRef s = false ->
    forallb JS.isWhiteSpace (JS.join (map transcript (earlier ++ [last]))) = true ->
    Handled props platform s (Result (earlier ++ [last]))
      (Normal tt,
       setRequestInFlight false
         (setResponseText (fun prev => prev ++ aiPrefix ++ [])
            (setRequestInFlight true
               (setResponseText
                  (fun _ => JS.join (map transcript (earlier ++ [last]))) s))),
       effects (speakResponse props platform [] s))
| handled_fetch (earlier : list Segment) (last : Segment) (request : Request) :
    recognitionRef s = true ->
    isFinal last = true ->
    requestInFlightRef s = false ->
    forallb JS.isWhiteSpace (JS.join (map transcript (earlier ++ [last]))) = false ->
    request = {| url := endpointOf (apiEndpoint props);
                 message := JS.join (map transcript (earlier ++ [last]));
                 bodySystemPrompt := systemPrompt props |} ->
    Handled props platform s (Result (earlier ++ [last]))
      (Normal tt,
       setOutstanding (fun l => l ++ [request])
         (setIsProcessing true
            (setRequestInFlight true
               (setResponseText
                  (fun _ => JS.join (map transcript (earlier ++ [last]))) s))),
       [ConsoleLog (JS.lit "Calling API endpoint:") (url request); Fetch request])
| handled_error (error : jsstring) :
    recognitionRef s = true ->
    Handled props platform s (RecognitionError error)
      (Normal tt, setIsProcessing false (setIsListening false s),
       [ConsoleError (JS.lit "Speech recognition error") error])
| handled_settled (i : nat) (o : FetchOutcome) (request : Request)
    (reply : Value) (log : list Effect) :
    nth_error (outstanding s) i = Some request ->
    completion (getAIResponse_resume o (setOutstanding (remove_nth i) s))
      = Normal reply ->
    fetched log = [] ->
    spoken log = [] ->
    starts log = 0 ->
    stops log = 0 ->
    Handled props platform s (Settled i o)
      (Normal tt,
       setRequestInFlight false
         (setResponseText (fun prev => prev ++ aiPrefix ++ toString reply)
            (setIsProcessing false (setOutstanding (remove_nth i) s))),
       log ++ effects (speakResponse props platform (toString reply) s)).

(** Unfolds the plumbing of handler code. *)
Ltac handler_steps :=
  cbv beta iota delta
    [bind ret throw try_catch try_finally gets modify emit completion final effects];
  cbn [fst snd app].

(* ===================================================================== *)
(** ** Facts about strings *)
(* ===================================================================== *)

Module JSFacts.

Lemma trimStart_nil (s : jsstring) :
  JS.trimStart s = [] <-> forallb JS.isWhiteSpace s = true.
Proof.
  induction s as [|c s IH]; simpl.
  - tauto.
  - destruct (JS.isWhiteSpace c); simpl.
    + exact IH.
    + split; discriminate.
Qed.

Lemma trimStart_head (s : jsstring) (c : JS.char) (rest : jsstring) :
  JS.trimStart s = c :: rest -> JS.isWhiteSpace c = false.
Proof.
  induction s as [|d s IH]; simpl; [discriminate|].
  destruct (JS.isWhiteSpace d) eqn:E; [exact IH|].
  intros H; injection H as -> _; exact E.
Qed.

Lemma forallb_rev (f : JS.char -> bool) (s : jsstring) :
  forallb f (rev s) = forallb f s.
Proof.
  induction s as [|c s IH]; simpl; [reflexivity|].
  rewrite forallb_app, IH; simpl.
  rewrite andb_true_r; apply andb_comm.
Qed.

(** [s.trim()] is empty exactly when every character of [s] is white space. *)
Lemma trim_nil (s : jsstring) :
  JS.trim s = [] <-> forallb JS.isWhiteSpace s = true.
Proof.
  unfold JS.trim, JS.trimEnd; split.
  - intros H.
    assert (Hr : JS.trimStart (rev (JS.trimStart s)) = []).
    { rewrite <- (rev_involutive (JS.trimStart _)), H; reflexivity. }
    apply trimStart_nil in Hr; rewrite forallb_rev in Hr.
    destruct (JS.trimStart s) as [|c rest] eqn:E.
    + apply trimStart_nil; exact E.
    + apply trimStart_head in E; simpl in Hr; rewrite E in Hr; discriminate.
  - intros H; apply trimStart_nil in H; rewrite H; reflexivity.
Qed.

Lemma startsWith_app (prefix s : jsstring) :
  JS.startsWith (prefix ++ s) prefix = true.
Proof.
  induction prefix as [|p prefix IH]; simpl.
  - destruct s; reflexivity.
  - rewrite N.eqb_refl; exact IH.
Qed.

Lemma includes_here (s part : jsstring) :
  JS.startsWith s part = true -> JS.includes s part = true.
Proof. intros H; destruct s; simpl in *; rewrite H; reflexivity. Qed.

(** A string includes each of its suffixes. *)
Lemma includes_suffix (before part : jsstring) :
  JS.includes (before ++ part) part = true.
Proof.
  induction before as [|c before IH]; simpl.
  - apply includes_here; rewrite <- (app_nil_r part) at 1; apply startsWith_app.
  - rewrite IH; apply orb_true_r.
Qed.

End JSFacts.

(* ===================================================================== *)
(** ** The relay call: [getAIResponse] *)
(* ===================================================================== *)

Section RelayCall.

Variable props : Props.
Variable platform : Platform.

(** The early return of [getAIResponse] with the empty string. *)
Lemma getAIResponse_call_blank (text : jsstring) (s : State) :
  forallb JS.isWhiteSpace text = true ->
  getAIResponse_call props text s = (Normal (inl []), s, []).
Proof.
  intros Hblank.
  apply JSFacts.trim_nil in Hblank.
  unfold getAIResponse_call.
  rewrite Hblank; reflexivity.
Qed.

(** C5. For every transcript that is empty or made of white space only,
    [getAIResponse] returns the empty string at once: the state is left as
    it was and nothing is done to the outside world, so no request is
    issued. *)
Theorem blank_transcript_short_circuits (text : jsstring) (s : State) :
  forallb JS.isWhiteSpace text = true ->
  getAIResponse_call props text s = (Normal (inl []), s, []) /\
  fetched (effects (getAIResponse_call props text s)) = [].
Proof.
  intros Hblank.
  rewrite (getAIResponse_call_blank text s Hblank).
  split; reflexivity.
Qed.

(** A transcript with a character that is not white space does issue
    exactly one request, so the short circuit above is the only way around
    the network. *)
Lemma nonblank_transcript_is_fetched (text : jsstring) (s : State) :
  forallb JS.isWhiteSpace text = false ->
  let request :=
    {| url := endpointOf (apiEndpoint props); message := text;
       bodySystemPrompt := systemPrompt props |} in
  getAIResponse_call props text s =
    (Normal (inr request), setIsProcessing true s,
     [ConsoleLog (JS.lit "Calling API endpoint:") (url request); Fetch request]).
Proof.
  intros Hnb request.
  unfold getAIResponse_call.
  destruct (JS.trim text) as [|c rest] eqn:E.
  - apply JSFacts.trim_nil in E; congruence.
  - cbn [JS.truthy negb]; handler_steps; reflexivity.
Qed.

(** The part of [getAIResponse] that runs before the request never throws. *)
Lemma getAIResponse_call_returns (text : jsstring) (s : State) :
  exists v, completion (getAIResponse_call props text s) = Normal v.
Proof.
  unfold getAIResponse_call.
  destruct (JS.truthy (JS.trim text)); simpl; eexists; reflexivity.
Qed.

(** C3 (as amended). For every text and every way the request can end,
    [getAIResponse] never throws to its caller. For a blank text it
    resolves at once to the empty string, with no request. For any other
    text it issues the request, and whatever the outcome it then resolves:
    to the relay's [response] member as it is when that is truthy (the
    text, when it is a non-empty string; a truthy member of another type
    is passed on unconverted, so the value is then not a string); to the
    fallback line when a success body has no such member or an empty one;
    and to the apology line followed by the error's message when the
    [fetch] rejects, the status is not a success, or a success body cannot
    be read. *)
Theorem getAIResponse_never_throws (text : jsstring) (o : FetchOutcome) (s : State) :
  (forallb JS.isWhiteSpace text = true ->
   getAIResponse_call props text s = (Normal (inl []), s, [])) /\
  (forallb JS.isWhiteSpace text = false ->
   exists request,
     completion (getAIResponse_call props text s) = Normal (inr request)) /\
  exists value,
    completion (getAIResponse_resume o s) = Normal value /\
    ((exists status reply,
        o = Responded status (JsonValue (Some reply)) /\ ok status = true /\
        reply <> [] /\ value = Str reply) \/
     (exists status rendering,
        o = Responded status (JsonOther rendering) /\ ok status = true /\
        value = NonString rendering) \/
     (exists status response,
        o = Responded status (JsonValue response) /\ ok status = true /\
        (response = None \/ response = Some []) /\ value = Str fallbackReply) \/
     (exists msg,
        (o = Rejected msg \/
         (exists status body,
            o = Responded status body /\ ok status = false /\
            msg = statusMessage status) \/
         (exists status,
            ok status = true /\
            (o = Responded status (Unparsable msg) \/
             o = Responded status (JsonNull msg)))) /\
        value = Str (apologyPrefix ++ msg))).
Proof.
  split; [apply getAIResponse_call_blank|].
  split.
  { intros Hnonblank.
    rewrite (nonblank_transcript_is_fetched text s Hnonblank).
    eexists; reflexivity. }
  unfold getAIResponse_resume, getAIResponse_body.
  destruct o as [msg | status body].
  - eexists; split; [reflexivity|].
    do 3 right; exists msg; split; [left; reflexivity | reflexivity].
  - destruct (ok status) eqn:Hok; cbn [negb].
    + destruct body as [msg | msg | [reply|] | rendering].
      * eexists; split; [reflexivity|].
        do 3 right; exists msg; split; [|reflexivity].
        right; right; exists status; split; [exact Hok | left; reflexivity].
      * eexists; split; [reflexivity|].
        do 3 right; exists msg; split; [|reflexivity].
        right; right; exists status; split; [exact Hok | right; reflexivity].
      * destruct reply as [|c reply].
        -- eexists; split; [reflexivity|].
           right; right; left; exists status, (Some []).
           repeat split; [exact Hok | right; reflexivity].
        -- eexists; split; [reflexivity|].
           left; exists status, (c :: reply).
           repeat split; [exact Hok | discriminate].
      * eexists; split; [reflexivity|].
        right; right; left; exists status, None.
        repeat split; [exact Hok | left; reflexivity].
      * eexists; split; [reflexivity|].
        right; left; exists status, rendering.
        repeat split; exact Hok.
    + eexists; split; [reflexivity|].
      do 3 right; exists (statusMessage status); split; [|reflexivity].
      right; left; exists status, body; repeat split; exact Hok.
Qed.

(** C2 (as amended). Every request [getAIResponse] issues goes to the
    configured endpoint itself when that already starts with [http://] or
    [https://], and to the endpoint with [https://] put in front otherwise;
    so the URL used always carries one of the two schemes, and [https] is
    only what an endpoint without a scheme is given. *)
Theorem fetched_url_keeps_or_gains_scheme
    (text : jsstring) (s : State) (request : Request) :
  In request (fetched (effects (getAIResponse_call props text s))) ->
  url request =
    (if JS.startsWith (apiEndpoint props) (JS.lit "http://")
        || JS.startsWith (apiEndpoint props) (JS.lit "https://")
     then apiEndpoint props
     else JS.lit "https://" ++ apiEndpoint props) /\
  (JS.startsWith (url request) (JS.lit "http://") = true \/
   JS.startsWith (url request) (JS.lit "https://") = true).
Proof.
  intros Hin.
  destruct (forallb JS.isWhiteSpace text) eqn:Hblank.
  - rewrite (getAIResponse_call_blank text s Hblank) in Hin; destruct Hin.
  - rewrite (nonblank_transcript_is_fetched text s Hblank) in Hin.
    destruct Hin as [<- | []]; cbn [url].
    unfold endpointOf.
    destruct (JS.startsWith (apiEndpoint props) (JS.lit "http://")) eqn:Hhttp;
      destruct (JS.startsWith (apiEndpoint props) (JS.lit "https://")) eqn:Hhttps;
      cbn [negb andb orb]; split; try reflexivity; auto.
    right; apply JSFacts.startsWith_app.
Qed.

End RelayCall.

Lemma blank_transcript_short_circuits_witness :
  let text : jsstring := [32; 9; 160; 10; 8232]%N in
  getAIResponse_call defaultProps text (mount browser)
    = (Normal (inl []), mount browser, []) /\
  fetched (effects (getAIResponse_call defaultProps text (mount browser))) = [].
Proof.
  apply (blank_transcript_short_circuits defaultProps [32; 9; 160; 10; 8232]%N).
  reflexivity.
Defined.

Lemma fetched_url_keeps_or_gains_scheme_witness :
  url (requestFor "hello") =
    (if JS.startsWith (apiEndpoint defaultProps) (JS.lit "http://")
        || JS.startsWith (apiEndpoint defaultProps) (JS.lit "https://")
     then apiEndpoint defaultProps
     else JS.lit "https://" ++ apiEndpoint defaultProps) /\
  (JS.startsWith (url (requestFor "hello")) (JS.lit "http://") = true \/
   JS.startsWith (url (requestFor "hello")) (JS.lit "https://") = true).
Proof.
  apply (fetched_url_keeps_or_gains_scheme defaultProps (JS.lit "hello")
           (mount browser) (requestFor "hello")).
  simpl; left; reflexivity.
Defined.

(** C2 (as stated) fails on the component's own default: the request for
    "hello" goes to [http://localhost:3000/api/chat], which is not an
    [https] URL. *)
Lemma default_endpoint_is_fetched_over_http :
  fetched (effects (getAIResponse_call defaultProps (JS.lit "hello") (mount browser)))
    = [requestFor "hello"] /\
  url (requestFor "hello") = JS.lit "http://localhost:3000/api/chat" /\
  JS.startsWith (url (requestFor "hello")) (JS.lit "https://") = false.
Proof. repeat split; reflexivity. Qed.

(** C3 (as stated) fails in two places. For a blank text [getAIResponse]
    resolves to the empty string, with no request made: that is neither a
    response text of the provider nor an apology or fallback line. And
    when the relay answers with a truthy [response] member that is not a
    string (here the number 42), [getAIResponse] resolves to that value as
    it is, which is not a string. *)
Lemma blank_text_resolves_to_neither_text_nor_apology :
  let r := getAIResponse_call defaultProps (JS.lit "  ") (mount browser) in
  completion r = Normal (inl []) /\
  fetched (effects r) = [] /\
  [] <> fallbackReply /\
  (forall msg, [] <> apologyPrefix ++ msg) /\
  exists value,
    completion
      (getAIResponse_resume (Responded 200 (JsonOther (JS.lit "42"))) awaitingReply)
      = Normal value /\
    isString value = false.
Proof.
  repeat split; try discriminate.
  exists (NonString (JS.lit "42")); split; reflexivity.
Qed.

(* ===================================================================== *)
(** ** The session controller *)
(* ===================================================================== *)

Section Session.

Variable props : Props.
Variable platform : Platform.


(** [speakResponse] neither throws nor touches the component's state, and
    what it says does not depend on that state. *)
Lemma speakResponse_run (text : jsstring) (s s0 : State) :
  speakResponse props platform text s = (Normal tt, s, effects (speakResponse props platform text s0)).
Proof.
  unfold speakResponse.
  destruct (hasSpeechSynthesis platform); reflexivity.
Qed.

Lemma speakResponse_effects (text : jsstring) (s : State) :
  fetched (effects (speakResponse props platform text s)) = [] /\
  starts (effects (speakResponse props platform text s)) = 0 /\
  stops (effects (speakResponse props platform text s)) = 0 /\
  spoken (effects (speakResponse props platform text s)) =
    (if hasSpeechSynthesis platform then [text] else []).
Proof.
  unfold speakResponse.
  destruct (hasSpeechSynthesis platform); repeat split; reflexivity.
Qed.

(** The rest of [getAIResponse] always returns, with [isProcessing]
    cleared by its [finally], and only writes to the console. *)
Lemma getAIResponse_resume_run (o : FetchOutcome) (s : State) :
  exists reply log,
    getAIResponse_resume o s = (Normal reply, setIsProcessing false s, log) /\
    fetched log = [] /\ spoken log = [] /\ starts log = 0 /\ stops log = 0.
Proof.
  unfold getAIResponse_resume, getAIResponse_body.
  destruct o as [msg | status [msg | msg | [reply|] | rendering]];
    [| destruct (ok status) .. ];
    do 2 eexists; (split; [reflexivity|]); repeat split; reflexivity.
Qed.

(** The reply part of [recognition.onresult] when the awaited call
    returns: the reply is appended after ["\n\nAI: "], spoken, and the
    in-flight flag is cleared. *)
Lemma onresult_reply_run (awaited : Handler Value)
    (s s1 : State) (aiResponse : Value) (log : list Effect) :
  awaited s = (Normal aiResponse, s1, log) ->
  onresult_reply props platform awaited s =
    (Normal tt,
     setRequestInFlight false
       (setResponseText (fun prev => prev ++ aiPrefix ++ toString aiResponse) s1),
     log ++ effects (speakResponse props platform (toString aiResponse) s)).
Proof.
  intros Hawaited.
  unfold onresult_reply, try_finally, bind.
  rewrite Hawaited.
  unfold modify.
  rewrite (speakResponse_run (toString aiResponse) _ s).
  cbn [app]; rewrite app_nil_r; reflexivity.
Qed.

(** The [finally] of [recognition.onresult] clears the flag on the
    exceptional path too. *)
Lemma onresult_reply_clears_flag (awaited : Handler Value) (s : State) :
  requestInFlightRef (final (onresult_reply props platform awaited s)) = false.
Proof.
  unfold onresult_reply, try_finally, bind, modify, final.
  destruct (awaited s) as [[[aiResponse | msg] s1] log]; cbn [fst snd].
  - rewrite (speakResponse_run (toString aiResponse) _ s); reflexivity.
  - reflexivity.
Qed.

Lemma lastResult_snoc (earlier : list Segment) (last : Segment) (s : State) :
  lastResult (earlier ++ [last]) s = (Normal last, s, []).
Proof. unfold lastResult; rewrite rev_app_distr; reflexivity. Qed.

(** A pending request that settles: the reply of [getAIResponse] is
    appended and spoken, both flags are cleared, the request is no longer
    pending, and nothing is fetched or started. *)
Lemma onsettled_run (i : nat) (o : FetchOutcome) (s : State) :
  exists reply log,
    getAIResponse_resume o (setOutstanding (remove_nth i) s)
      = (Normal reply, setIsProcessing false (setOutstanding (remove_nth i) s), log) /\
    fetched log = [] /\ spoken log = [] /\ starts log = 0 /\ stops log = 0 /\
    onsettled props platform i o s =
      (Normal tt,
       setRequestInFlight false
         (setResponseText (fun prev => prev ++ aiPrefix ++ toString reply)
            (setIsProcessing false (setOutstanding (remove_nth i) s))),
       log ++ effects (speakResponse props platform (toString reply) s)).
Proof.
  destruct (getAIResponse_resume_run o (setOutstanding (remove_nth i) s))
    as (reply & log & Hrun & Hf & Hsp & Hst & Hstop).
  exists reply, log; repeat (split; [assumption|]).
  unfold onsettled, bind at 1, modify at 1.
  rewrite (onresult_reply_run _ _ _ _ _ Hrun).
  rewrite (speakResponse_run (toString reply) _ s),
    (speakResponse_run (toString reply) s s).
  reflexivity.
Qed.

(** [recognition.onresult] for a final segment that finds the flag clear
    and a blank transcript: no suspension, the whole handler runs. *)
Lemma onresult_blank_run (earlier : list Segment) (last : Segment) (s : State) :
  isFinal last = true ->
  requestInFlightRef s = false ->
  forallb JS.isWhiteSpace (JS.join (map transcript (earlier ++ [last]))) = true ->
  onresult props platform (earlier ++ [last]) s =
    (Normal tt,
     setRequestInFlight false
       (setResponseText (fun prev => prev ++ aiPrefix ++ [])
          (setRequestInFlight true
             (setResponseText
                (fun _ => JS.join (map transcript (earlier ++ [last]))) s))),
     effects (speakResponse props platform [] s)).
Proof.
  intros Hfinal Hclear Hblank.
  unfold onresult.
  unfold bind at 1, modify at 1.
  unfold bind at 1; rewrite lastResult_snoc.
  unfold bind at 1, gets at 1; cbn [requestInFlightRef setResponseText].
  rewrite Hfinal, Hclear; cbn [negb andb].
  unfold bind at 1, modify at 1.
  unfold bind at 1; rewrite (getAIResponse_call_blank props _ _ Hblank).
  rewrite (onresult_reply_run (ret (Str [])) _ _ _ _ eq_refl).
  cbn [app]; rewrite (speakResponse_run [] _ s).
  reflexivity.
Qed.

(** [recognition.onresult] for a final segment that finds the flag clear
    and a transcript that is not blank: the flag is set, the request is
    issued, and the handler is suspended on it. *)
Lemma onresult_fetch_run (earlier : list Segment) (last : Segment) (s : State) :
  isFinal last = true ->
  requestInFlightRef s = false ->
  forallb JS.isWhiteSpace (JS.join (map transcript (earlier ++ [last]))) = false ->
  let text := JS.join (map transcript (earlier ++ [last])) in
  let request :=
    {| url := endpointOf (apiEndpoint props); message := text;
       bodySystemPrompt := systemPrompt props |} in
  onresult props platform (earlier ++ [last]) s =
    (Normal tt,
     setOutstanding (fun l => l ++ [request])
       (setIsProcessing true
          (setRequestInFlight true (setResponseText (fun _ => text) s))),
     [ConsoleLog (JS.lit "Calling API endpoint:") (url request); Fetch request]).
Proof.
  intros Hfinal Hclear Hnonblank text request.
  unfold onresult; fold text.
  unfold bind at 1, modify at 1.
  unfold bind at 1; rewrite lastResult_snoc.
  unfold bind at 1, gets at 1; cbn [requestInFlightRef setResponseText].
  rewrite Hfinal, Hclear; cbn [negb andb].
  unfold bind at 1, modify at 1.
  unfold bind at 1.
  rewrite (nonblank_transcript_is_fetched props text _ Hnonblank).
  reflexivity.
Qed.

(** C4. When the relay answers a pending request with a status that is not
    a success (500, or any status outside 200-299), the result handler
    completes normally (no exception leaves it), and the displayed
    transcript gains ["\n\nAI: "] followed by the apology line, which ends
    in ["API returned status "] and the status code in decimal; the same
    line is what is spoken, and both flags are cleared. *)
Theorem relay_error_status_is_displayed
    (s : State) (i : nat) (request : Request) (status : N) (body : Body) :
  nth_error (outstanding s) i = Some request ->
  ok status = false ->
  exists r,
    dispatch props platform (Settled i (Responded status body)) s = Some r /\
    completion r = Normal tt /\
    responseText (final r) =
      responseText s ++ aiPrefix ++ apologyPrefix ++ statusMessage status /\
    JS.includes (apologyPrefix ++ statusMessage status) (JS.ofNumber status) = true /\
    spoken (effects r) =
      (if hasSpeechSynthesis platform
       then [apologyPrefix ++ statusMessage status] else []) /\
    requestInFlightRef (final r) = false /\
    isProcessing (final r) = false.
Proof.
  intros Hpending Hstatus.
  exists (onsettled props platform i (Responded status body) s); split.
  { cbn [dispatch]; rewrite Hpending; reflexivity. }
  assert (Hresume :
    getAIResponse_resume (Responded status body) (setOutstanding (remove_nth i) s)
    = (Normal (Str (apologyPrefix ++ statusMessage status)),
       setIsProcessing false (setOutstanding (remove_nth i) s),
       [ConsoleError (JS.lit "API Error:") [];
        ConsoleError (JS.lit "Error getting AI response:") (statusMessage status)])).
  { unfold getAIResponse_resume, getAIResponse_body; rewrite Hstatus; reflexivity. }
  unfold onsettled, bind, modify.
  rewrite (onresult_reply_run _ _ _ _ _ Hresume).
  cbn [completion final effects fst snd app].
  repeat split.
  - unfold statusMessage.
    rewrite !app_assoc; apply JSFacts.includes_suffix.
  - cbn [spoken].
    apply (speakResponse_effects _ _).
Qed.

(** C10. A finalized transcript that is empty or white space only, arriving
    while no request is in flight, makes no network call, yet the handler
    still replaces the displayed text by the transcript followed by
    ["\n\nAI: "] and the empty reply, and still calls [speakResponse] once
    with the empty string (one utterance of the empty text where the
    platform can speak); the flag is clear again afterwards. *)
Theorem blank_final_transcript_is_still_answered
    (earlier : list Segment) (last : Segment) (s : State) :
  isFinal last = true ->
  requestInFlightRef s = false ->
  forallb JS.isWhiteSpace (JS.join (map transcript (earlier ++ [last]))) = true ->
  let text := JS.join (map transcript (earlier ++ [last])) in
  let r := onresult props platform (earlier ++ [last]) s in
  completion r = Normal tt /\
  responseText (final r) = text ++ aiPrefix ++ [] /\
  effects r = effects (speakResponse props platform [] s) /\
  fetched (effects r) = [] /\
  (hasSpeechSynthesis platform = true -> spoken (effects r) = [[]]) /\
  outstanding (final r) = outstanding s /\
  isProcessing (final r) = isProcessing s /\
  requestInFlightRef (final r) = false.
Proof.
  intros Hfinal Hclear Hblank text r; subst r text.
  rewrite (onresult_blank_run earlier last s Hfinal Hclear Hblank).
  cbn [completion final effects fst snd
       responseText outstanding isProcessing requestInFlightRef
       setRequestInFlight setResponseText].
  destruct (speakResponse_effects [] s) as (Hf & _ & _ & Hsp).
  repeat split; try assumption.
  intros Hsynth; rewrite Hsp, Hsynth; reflexivity.
Qed.

(** A final segment that arrives while the flag is set only updates the
    displayed transcript: no request is issued and none is queued. *)
Lemma final_segment_in_flight_is_dropped
    (earlier : list Segment) (last : Segment) (s : State) :
  requestInFlightRef s = true ->
  onresult props platform (earlier ++ [last]) s =
    (Normal tt,
     setResponseText (fun _ => JS.join (map transcript (earlier ++ [last]))) s,
     []).
Proof.
  intros Hset.
  unfold onresult.
  unfold bind at 1, modify at 1.
  unfold bind at 1; rewrite lastResult_snoc.
  unfold bind at 1, gets at 1; cbn [requestInFlightRef setResponseText].
  rewrite Hset, andb_false_r; reflexivity.
Qed.

(** C7 (as amended). Every recognition error ends the handler normally
    with the session idle ([isListening] and [isProcessing] false), and the
    only thing done to the outside world is one [console.error] with the
    error: recognition is not started again, no request is issued, the
    displayed text and the pending requests stay as they were, and nothing
    is spoken, so the error reaches the console and not the user. *)
Theorem recognition_error_idles_and_only_logs (error : jsstring) (s : State) :
  let r := onerror error s in
  completion r = Normal tt /\
  idle (final r) = true /\
  effects r = [ConsoleError (JS.lit "Speech recognition error") error] /\
  starts (effects r) = 0 /\
  fetched (effects r) = [] /\
  responseText (final r) = responseText s /\
  outstanding (final r) = outstanding s /\
  requestInFlightRef (final r) = requestInFlightRef s /\
  ~ shownToUser s r.
Proof.
  cbv zeta; unfold shownToUser.
  repeat split; intros [H | H]; apply H; reflexivity.
Qed.



Lemma starts_app (a b : list Effect) : starts (a ++ b) = starts a + starts b.
Proof. unfold starts; rewrite filter_app, length_app; reflexivity. Qed.

Lemma fetched_app (a b : list Effect) : fetched (a ++ b) = fetched a ++ fetched b.
Proof.
  induction a as [|e a IH]; [reflexivity|].
  destruct e; cbn [app fetched]; rewrite IH; reflexivity.
Qed.

Lemma spoken_app (a b : list Effect) : spoken (a ++ b) = spoken a ++ spoken b.
Proof.
  induction a as [|e a IH]; [reflexivity|].
  destruct e; cbn [app spoken]; rewrite IH; reflexivity.
Qed.

(** [toggleListening] without a recognition object: one line on the
    console, nothing else. *)
Lemma toggleListening_unsupported (s : State) :
  recognitionRef s = false ->
  toggleListening s =
    (Normal tt, s, [ConsoleError (JS.lit "Speech recognition not supported") []]).
Proof.
  intros Hnone; unfold toggleListening, bind, gets.
  rewrite Hnone; reflexivity.
Qed.

(** On a platform without speech recognition the component never leaves
    the state it was mounted in, whatever the user does, and no event ever
    starts capture, issues a request or speaks. *)
Lemma unsupported_platform_stays_mounted :
  hasSpeechRecognition platform = false ->
  forall (evs : list Event) (s : State) (effs : list Effect),
    run props platform evs (mount platform) = Some (s, effs) ->
    s = mount platform /\ starts effs = 0 /\ fetched effs = [] /\ spoken effs = [].
Proof.
  intros Hnone evs.
  induction evs as [|ev evs IH]; intros s effs Hrun.
  - injection Hrun as <- <-; repeat split.
  - cbn [run] in Hrun.
    assert (Hstep : dispatch props platform ev (mount platform) = None \/
                    exists log, dispatch props platform ev (mount platform)
                                  = Some (Normal tt, mount platform, log) /\
                                starts log = 0 /\ fetched log = [] /\ spoken log = []).
    { destruct ev as [| | results | error | i o]; cbn [dispatch mount recognitionRef outstanding].
      - right; eexists; split.
        + rewrite toggleListening_unsupported by exact Hnone; reflexivity.
        + repeat split.
      - right; exists []; split; [reflexivity | repeat split].
      - left; rewrite Hnone; reflexivity.
      - left; rewrite Hnone; reflexivity.
      - left; destruct i; reflexivity. }
    destruct Hstep as [Hstep | (log & Hstep & Hs & Hf & Hsp)]; rewrite Hstep in Hrun.
    + discriminate.
    + destruct (run props platform evs (mount platform)) as [[s2 e2]|] eqn:Hrest;
        [|discriminate].
      injection Hrun as <- <-.
      destruct (IH _ _ eq_refl) as (-> & Hs2 & Hf2 & Hsp2).
      rewrite starts_app, fetched_app, spoken_app, Hs, Hf, Hsp, Hs2, Hf2, Hsp2.
      repeat split.
Qed.

(** C6 (as amended). On a platform without speech recognition, in whatever
    state the session is after any sequence of events, invoking
    [toggleListening] (start) completes normally and leaves the state as it
    was, which is idle ([isListening] and [isProcessing] false), starts no
    capture and writes "Speech recognition not supported" to the console;
    nothing is displayed or spoken to the user. *)
Theorem start_without_recognition_only_logs
    (evs : list Event) (s : State) (effs : list Effect) :
  hasSpeechRecognition platform = false ->
  run props platform evs (mount platform) = Some (s, effs) ->
  idle s = true /\
  starts effs = 0 /\
  toggleListening s =
    (Normal tt, s, [ConsoleError (JS.lit "Speech recognition not supported") []]) /\
  ~ shownToUser s (toggleListening s).
Proof.
  intros Hnone Hrun.
  destruct (unsupported_platform_stays_mounted Hnone evs s effs Hrun) as (-> & Hs & _ & _).
  assert (Htoggle := toggleListening_unsupported (mount platform) Hnone).
  repeat split; try assumption.
  rewrite Htoggle; unfold shownToUser; cbn.
  intros [H | H]; apply H; reflexivity.
Qed.

(** [recognition.onresult] for a segment that is not final, or that finds
    the flag set: only the displayed transcript changes. *)
Lemma onresult_display_only (earlier : list Segment) (last : Segment) (s : State) :
  isFinal last && negb (requestInFlightRef s) = false ->
  onresult props platform (earlier ++ [last]) s =
    (Normal tt,
     setResponseText (fun _ => JS.join (map transcript (earlier ++ [last]))) s,
     []).
Proof.
  intros Hskip.
  unfold onresult.
  unfold bind at 1, modify at 1.
  unfold bind at 1; rewrite lastResult_snoc.
  unfold bind at 1, gets at 1; cbn [requestInFlightRef setResponseText].
  rewrite Hskip; reflexivity.
Qed.

(** One event keeps the latch discipline, unless it starts a new session
    while a request of the previous one is still pending. *)
Lemma dispatch_keeps_singleFlight (ev : Event) (s : State) (r : Run unit) :
  singleFlight s ->
  (ev = Toggle -> isListening s = true \/ outstanding s = []) ->
  dispatch props platform ev s = Some r ->
  singleFlight (final r).
Proof.
  intros [Hlen Hclear] Hrestart Hstep.
  destruct ev as [| | results | error | i o]; cbn [dispatch] in Hstep.
  - (* Toggle *)
    injection Hstep as <-.
    unfold toggleListening, singleFlight; handler_steps.
    destruct (recognitionRef s); cbn [negb fst snd]; [|split; assumption].
    destruct (isListening s) eqn:Hl; cbn [fst snd outstanding requestInFlightRef
      setIsListening setRecognitionActive setResponseText setRequestInFlight];
      [split; assumption|].
    destruct (Hrestart eq_refl) as [Habs | Hnone]; [discriminate|].
    rewrite Hnone; split; [apply Nat.le_0_l | reflexivity].
  - (* Close *)
    injection Hstep as <-.
    unfold closeOverlay, singleFlight; handler_steps.
    destruct (isListening s && recognitionRef s); cbn; split; assumption.
  - (* Result *)
    destruct (recognitionRef s); [|discriminate].
    injection Hstep as <-.
    induction results as [|last earlier _] using rev_ind.
    + split; assumption.
    + destruct (isFinal last && negb (requestInFlightRef s)) eqn:Hgo.
      * apply andb_prop in Hgo; destruct Hgo as [Hfinal Hflag].
        apply negb_true_iff in Hflag.
        destruct (forallb JS.isWhiteSpace (JS.join (map transcript (earlier ++ [last]))))
          eqn:Hblank.
        -- rewrite (onresult_blank_run earlier last s Hfinal Hflag Hblank).
           unfold singleFlight; cbn; rewrite (Hclear Hflag).
           split; [apply Nat.le_0_l | reflexivity].
        -- rewrite (onresult_fetch_run earlier last s Hfinal Hflag Hblank).
           unfold singleFlight; cbn; rewrite (Hclear Hflag).
           split; [apply Nat.le_refl | discriminate].
      * rewrite (onresult_display_only earlier last s Hgo).
        split; assumption.
  - (* RecognitionError *)
    destruct (recognitionRef s); [|discriminate].
    injection Hstep as <-.
    split; assumption.
  - (* Settled *)
    destruct (nth_error (outstanding s) i) as [request|] eqn:Hpending; [|discriminate].
    injection Hstep as <-.
    destruct (onsettled_run i o s) as (reply & log & _ & _ & _ & _ & _ & ->).
    unfold singleFlight; cbn.
    destruct (outstanding s) as [|first [|second rest]].
    + destruct i; discriminate.
    + destruct i as [|[|i]]; cbn in *; try discriminate.
      split; [apply Nat.le_0_l | reflexivity].
    + cbn in Hlen; lia.
Qed.

(** The latch discipline holds along every sequence of events in which no
    session is started while a request is still pending: then at most one
    request is outstanding at any time. *)
Lemma singleFlight_without_restart :
  forall (evs : list Event) (s s' : State) (effs : list Effect),
    singleFlight s ->
    restartsOnlyWhenSettled props platform evs s = true ->
    run props platform evs s = Some (s', effs) ->
    singleFlight s'.
Proof.
  induction evs as [|ev evs IH]; intros s s' effs Hinv Hquiet Hrun.
  - injection Hrun as <- _; exact Hinv.
  - cbn [run restartsOnlyWhenSettled] in Hrun, Hquiet.
    apply andb_prop in Hquiet; destruct Hquiet as [Hhere Hrest].
    destruct (dispatch props platform ev s) as [[[c s1] e1]|] eqn:Hstep; [|discriminate].
    destruct (run props platform evs s1) as [[s2 e2]|] eqn:Hrun1; [|discriminate].
    injection Hrun as <- _.
    apply (IH s1 s2 e2); [|exact Hrest|exact Hrun1].
    apply (dispatch_keeps_singleFlight ev s (c, s1, e1)); [exact Hinv| |exact Hstep].
    intros ->.
    apply orb_prop in Hhere; destruct Hhere as [Hl | Hnone]; [left; exact Hl|].
    right; destruct (outstanding s); [reflexivity|discriminate].
Qed.

End Session.

(* ===================================================================== *)
(** ** Concrete runs of the session controller *)
(* ===================================================================== *)

Lemma listening_is_reached :
  run defaultProps browser [Toggle] (mount browser)
    = Some (listening, [RecognitionStart]).
Proof. reflexivity. Qed.

Lemma awaitingReply_is_reached :
  run defaultProps browser [Toggle; Result [finalSegment "hi"]] (mount browser)
    = Some (awaitingReply,
            [RecognitionStart;
             ConsoleLog (JS.lit "Calling API endpoint:") (url (requestFor "hi"));
             Fetch (requestFor "hi")]).
Proof. reflexivity. Qed.

Lemma restarted_is_reached :
  exists effs,
    run defaultProps browser restartBeforeReply (mount browser) = Some (restarted, effs) /\
    fetched effs = [requestFor "a"] /\ starts effs = 2 /\ stops effs = 1.
Proof. eexists; split; [reflexivity | repeat split]. Qed.

(** C1. The latch does not keep one listening session to one outstanding
    request. The first session sends "a" and is stopped before the reply;
    a second session is started, which clears the flag. In that second
    session "b" is finalized and sent; then the reply to "a" arrives, and
    the [finally] of its handler clears the flag although the request for
    "b" is still pending; the next finalized segment is therefore sent too.
    Both requests were issued in the second session, which contains no
    start or stop, and both are outstanding at its end. *)
Theorem second_session_has_two_requests_in_flight :
  exists (s : State) (effs : list Effect),
    run defaultProps browser secondSession restarted = Some (s, effs) /\
    starts effs = 0 /\ stops effs = 0 /\
    fetched effs = [requestFor "b"; requestFor "bc"] /\
    outstanding s = [requestFor "b"; requestFor "bc"] /\
    isListening s = true /\
    ~ singleFlight s.
Proof.
  eexists; eexists; split; [reflexivity|].
  repeat split.
  intros [Hlen _]; cbn in Hlen; lia.
Qed.

(** The sequence above is one the hypothesis of
    [singleFlight_without_restart] excludes. *)
Lemma restartBeforeReply_restarts_while_pending :
  restartsOnlyWhenSettled defaultProps browser restartBeforeReply (mount browser) = false.
Proof. reflexivity. Qed.

Lemma relay_error_status_is_displayed_witness :
  nth_error (outstanding awaitingReply) 0 = Some (requestFor "hi") /\
  ok 500 = false /\
  exists r,
    dispatch defaultProps browser (Settled 0 (Responded 500 (Unparsable []))) awaitingReply
      = Some r /\
    completion r = Normal tt /\
    responseText (final r) =
      responseText awaitingReply ++ aiPrefix ++ apologyPrefix ++ statusMessage 500 /\
    JS.includes (apologyPrefix ++ statusMessage 500) (JS.ofNumber 500) = true /\
    spoken (effects r) =
      (if hasSpeechSynthesis browser
       then [apologyPrefix ++ statusMessage 500] else []) /\
    requestInFlightRef (final r) = false /\
    isProcessing (final r) = false.
Proof.
  refine (conj eq_refl (conj eq_refl _)).
  apply (relay_error_status_is_displayed defaultProps browser awaitingReply 0
           (requestFor "hi") 500 (Unparsable [])); reflexivity.
Defined.

Lemma blank_final_transcript_is_still_answered_witness :
  let results := [] ++ [finalSegment "  "] in
  let r := onresult defaultProps browser results listening in
  completion r = Normal tt /\
  responseText (final r) = JS.join (map transcript results) ++ aiPrefix ++ [] /\
  effects r = effects (speakResponse defaultProps browser [] listening) /\
  fetched (effects r) = [] /\
  (hasSpeechSynthesis browser = true -> spoken (effects r) = [[]]) /\
  outstanding (final r) = outstanding listening /\
  isProcessing (final r) = isProcessing listening /\
  requestInFlightRef (final r) = false.
Proof.
  apply (blank_final_transcript_is_still_answered defaultProps browser
           [] (finalSegment "  ") listening); reflexivity.
Defined.

Lemma start_without_recognition_only_logs_witness :
  let s := mount browserWithoutRecognition in
  idle s = true /\
  starts [ConsoleError (JS.lit "Speech recognition not supported") []] = 0 /\
  toggleListening s =
    (Normal tt, s, [ConsoleError (JS.lit "Speech recognition not supported") []]) /\
  ~ shownToUser s (toggleListening s).
Proof.
  apply (start_without_recognition_only_logs defaultProps browserWithoutRecognition
           [Toggle; Close]); reflexivity.
Defined.

(** C6 (as stated) fails where it says the error is surfaced to the user:
    on a platform without speech recognition the first start attempt leaves
    the displayed text as it was and speaks nothing; the message goes to
    the console only. *)
Lemma unsupported_start_shows_nothing :
  let s := mount browserWithoutRecognition in
  let r := toggleListening s in
  final r = s /\
  effects r = [ConsoleError (JS.lit "Speech recognition not supported") []] /\
  ~ shownToUser s r.
Proof.
  repeat split.
  intros [H | H]; apply H; reflexivity.
Qed.

(** C7 (as stated) fails where it says the error is surfaced for display:
    a "network" error in a listening session leaves the displayed text at
    "Listening..." and speaks nothing. *)
Lemma recognition_error_shows_nothing :
  let r := onerror (JS.lit "network") listening in
  responseText (final r) = JS.lit "Listening..." /\
  spoken (effects r) = [] /\
  ~ shownToUser listening r.
Proof.
  repeat split.
  intros [H | H]; apply H; reflexivity.
Qed.



(* ===================================================================== *)
(** ** The relay route *)
(* ===================================================================== *)

(** A failure status of the provider whose body parses is passed on as it
    is, with an error body. *)
Lemma upstream_error_with_json_body_is_mirrored
    (req : Relay.ChatRequest) (text : jsstring) (status : N) (body : Relay.UpstreamBody) :
  Relay.message req = Some text ->
  JS.truthy text = true ->
  ok status = false ->
  (forall msg, body <> Relay.Unparsable msg) ->
  Relay.chat req (Relay.Responded status body) =
    {| Relay.status := status;
       Relay.body := Relay.ErrorJson (JS.lit "Failed to get response from OpenAI") |}.
Proof.
  intros Hmessage Htext Hstatus Hparses.
  unfold Relay.chat, Relay.chat_try.
  rewrite Hmessage; cbn [Relay.member_or_empty]; rewrite Htext, Hstatus; cbn [negb].
  destruct body as [msg | msg | content]; [|reflexivity..].
  destruct (Hparses msg eq_refl).
Qed.

(** Whatever the provider's failure looks like, the reply has the shape
    [{"error": string}], and its status is the provider's or 500. *)
Lemma upstream_error_reply_shape
    (req : Relay.ChatRequest) (text : jsstring) (status : N) (body : Relay.UpstreamBody) :
  Relay.message req = Some text ->
  JS.truthy text = true ->
  ok status = false ->
  let reply := Relay.chat req (Relay.Responded status body) in
  Relay.isErrorReply reply = true /\
  (Relay.status reply = status \/ Relay.status reply = 500%N).
Proof.
  intros Hmessage Htext Hstatus.
  unfold Relay.chat, Relay.chat_try.
  rewrite Hmessage; cbn [Relay.member_or_empty]; rewrite Htext, Hstatus; cbn [negb].
  destruct body; cbn; auto.
Qed.

(** C8. The route does not mirror every failure status of the provider:
    when the provider (or a gateway in front of it) answers 503 with a body
    that is not JSON, the unguarded [await response.json()] throws, the
    [catch] answers, and the client gets 500 "Internal server error"
    instead of 503. The body still has the shape [{"error": string}]. *)
Theorem unparsable_upstream_error_is_answered_500 :
  let reply := Relay.chat helloRequest gatewayError in
  ok 503 = false /\
  Relay.status reply = 500%N /\
  Relay.status reply <> 503%N /\
  Relay.body reply = Relay.ErrorJson (JS.lit "Internal server error").
Proof. repeat split; discriminate. Qed.

(* ===================================================================== *)
(** ** Whole sessions *)
(* ===================================================================== *)

Section Sessions.

Variable props : Props.
Variable platform : Platform.

(** The handlers do what [Handled] lists, and nothing else. *)
Lemma dispatch_Handled (ev : Event) (s : State) (r : Run unit) :
  dispatch props platform ev s = Some r -> Handled props platform s ev r.
Proof.
  intros Hstep.
  destruct ev as [| | results | error | i o]; cbn [dispatch] in Hstep.
  - injection Hstep as <-.
    destruct (recognitionRef s) eqn:Hrec.
    + destruct (isListening s) eqn:Hl.
      * replace (toggleListening s) with
          (Normal tt, setIsListening false (setRecognitionActive false s),
           [RecognitionStop]).
        -- apply handled_stop; assumption.
        -- unfold toggleListening, bind, gets; rewrite Hrec; cbn [negb]; rewrite Hl; reflexivity.
      * replace (toggleListening s) with
          (Normal tt,
           setIsListening true
             (setRecognitionActive true
                (setResponseText (fun _ => JS.lit "Listening...")
                   (setRequestInFlight false s))),
           [RecognitionStart]).
        -- apply handled_start; assumption.
        -- unfold toggleListening, bind, gets; rewrite Hrec; cbn [negb]; rewrite Hl; reflexivity.
    + rewrite (toggleListening_unsupported s Hrec).
      apply handled_unsupported; exact Hrec.
  - injection Hstep as <-.
    destruct (isListening s && recognitionRef s) eqn:Hboth.
    + apply andb_prop in Hboth; destruct Hboth as [Hl Hrec].
      replace (closeOverlay s) with
        (Normal tt, setIsListening false (setRecognitionActive false s),
         [RecognitionStop]).
      * apply handled_close_listening; assumption.
      * unfold closeOverlay, bind, gets; rewrite Hl, Hrec; reflexivity.
    + replace (closeOverlay s) with (Normal tt, setIsListening false s, @nil Effect).
      * apply handled_close_other; exact Hboth.
      * unfold closeOverlay, bind, gets; rewrite Hboth; reflexivity.
  - destruct (recognitionRef s) eqn:Hrec; [|discriminate].
    injection Hstep as <-.
    induction results as [|last earlier _] using rev_ind.
    + apply handled_no_results; exact Hrec.
    + destruct (isFinal last && negb (requestInFlightRef s)) eqn:Hgo.
      * apply andb_prop in Hgo; destruct Hgo as [Hfinal Hflag].
        apply negb_true_iff in Hflag.
        destruct (forallb JS.isWhiteSpace (JS.join (map transcript (earlier ++ [last]))))
          eqn:Hblank.
        -- rewrite (onresult_blank_run props platform earlier last s Hfinal Hflag Hblank).
           apply handled_blank; assumption.
        -- rewrite (onresult_fetch_run props platform earlier last s Hfinal Hflag Hblank).
           apply handled_fetch; try assumption; reflexivity.
      * rewrite (onresult_display_only props platform earlier last s Hgo).
        apply handled_display; assumption.
  - destruct (recognitionRef s) eqn:Hrec; [|discriminate].
    injection Hstep as <-.
    apply handled_error; exact Hrec.
  - destruct (nth_error (outstanding s) i) as [request|] eqn:Hpending; [|discriminate].
    injection Hstep as <-.
    destruct (onsettled_run props platform i o s)
      as (reply & log & Hresume & Hf & Hsp & Hst & Hstop & ->).
    apply (handled_settled props platform s i o request reply log); try assumption.
    rewrite Hresume; reflexivity.
Qed.



(** A property of states that every handled event keeps holds at the end
    of every session that starts with it. *)
Lemma run_preserves (I : State -> Prop) :
  (forall ev s r, I s -> Handled props platform s ev r -> I (final r)) ->
  forall (evs : list Event) (s s' : State) (effs : list Effect),
    I s -> run props platform evs s = Some (s', effs) -> I s'.
Proof.
  intros Hkeep evs.
  induction evs as [|ev evs IH]; intros s s' effs Hs Hrun; cbn [run] in Hrun.
  - injection Hrun as <- _; exact Hs.
  - destruct (dispatch props platform ev s) as [[[c s1] e1]|] eqn:Hstep; [|discriminate].
    destruct (run props platform evs s1) as [[s2 e2]|] eqn:Hrest; [|discriminate].
    injection Hrun as <- _.
    apply (IH s1 s2 e2); [|exact Hrest].
    apply (Hkeep ev s (c, s1, e1) Hs), dispatch_Handled, Hstep.
Qed.

(** X1. When no request is pending, the widget is not processing and the
    in-flight flag is clear: neither can stay set once every reply is in. *)
Theorem no_pending_request_means_not_processing
    (evs : list Event) (s : State) (effs : list Effect) :
  run props platform evs (mount platform) = Some (s, effs) ->
  outstanding s = [] ->
  isProcessing s = false /\ requestInFlightRef s = false.
Proof.
  intros Hrun.
  apply (run_preserves
           (fun s => outstanding s = [] ->
                     isProcessing s = false /\ requestInFlightRef s = false)
           ) with (evs := evs) (s := mount platform) (effs := effs);
    [| split; reflexivity | exact Hrun].
  clear; intros ev s r Hs Hstep.
  destruct Hstep; cbn; try exact Hs; intros Hnone;
    try (destruct (Hs Hnone) as [Hp Hf]; split; (reflexivity || assumption)).
  - apply app_eq_nil in Hnone; destruct Hnone as [_ Habs]; discriminate.
  - split; reflexivity.
Qed.

(** X2. The widget sends a request only for a result whose last segment is
    final, and at most one for each: it never retries a request and never
    sends one on its own. *)
Theorem requests_only_answer_final_results :
  forall (evs : list Event) (s s' : State) (effs : list Effect),
    run props platform evs s = Some (s', effs) ->
    length (fetched effs) <= finalResults evs.
Proof.
  induction evs as [|ev evs IH]; intros s s' effs Hrun; cbn [run] in Hrun.
  - injection Hrun as _ <-; apply Nat.le_refl.
  - destruct (dispatch props platform ev s) as [[[c s1] e1]|] eqn:Hstep; [|discriminate].
    destruct (run props platform evs s1) as [[s2 e2]|] eqn:Hrest; [|discriminate].
    injection Hrun as _ <-.
    specialize (IH s1 s2 e2 Hrest).
    rewrite fetched_app, length_app.
    apply dispatch_Handled in Hstep.
    inversion Hstep; subst; cbn [finalResults fetched length app]; try lia.
    + destruct (speakResponse_effects props platform [] s) as (Hf & _).
      rewrite Hf; cbn; lia.
    + rewrite rev_app_distr; cbn [rev app].
      match goal with Hfinal : isFinal last = true |- _ => rewrite Hfinal end.
      cbn; lia.
    + destruct (speakResponse_effects props platform (toString reply) s) as (Hf & _).
      rewrite fetched_app, Hf.
      match goal with Hlog : fetched log = [] |- _ => rewrite Hlog end.
      cbn; lia.
Qed.



(** The recognition object never changes, and a listening session always
    has one. *)
Lemma recognition_object_is_fixed
    (evs : list Event) (s : State) (effs : list Effect) :
  run props platform evs (mount platform) = Some (s, effs) ->
  recognitionRef s = hasSpeechRecognition platform /\
  (isListening s = true -> recognitionRef s = true /\ recognitionActive s = true).
Proof.
  intros Hrun.
  apply (run_preserves
           (fun s => recognitionRef s = hasSpeechRecognition platform /\
                     (isListening s = true ->
                      recognitionRef s = true /\ recognitionActive s = true)))
    with (evs := evs) (s := mount platform) (effs := effs);
    [| split; [reflexivity | discriminate] | exact Hrun].
  clear; intros ev s r [Hfixed Hl] Hstep.
  destruct Hstep; cbn; split; try assumption; try discriminate;
    try (intros _; split; [assumption | reflexivity]).
Qed.

(** X4. Tearing the component down after any session stops capture whenever
    the platform has speech recognition, and so always when the session is
    listening; it leaves the state alone and does nothing else (pending
    requests and speech are not cancelled). *)
Theorem teardown_releases_the_microphone
    (evs : list Event) (s : State) (effs : list Effect) :
  run props platform evs (mount platform) = Some (s, effs) ->
  unmount s =
    (Normal tt, s,
     if hasSpeechRecognition platform then [RecognitionStop] else []) /\
  (isListening s = true -> stops (effects (unmount s)) = 1).
Proof.
  intros Hrun.
  destruct (recognition_object_is_fixed evs s effs Hrun) as [Hfixed Hl].
  assert (Hun : unmount s =
    (Normal tt, s, if hasSpeechRecognition platform then [RecognitionStop] else [])).
  { unfold unmount, bind, gets; rewrite Hfixed.
    destruct (hasSpeechRecognition platform); reflexivity. }
  split; [exact Hun|].
  intros Hlistening; destruct (Hl Hlistening) as [Hrec _].
  rewrite Hun, <- Hfixed, Hrec; reflexivity.
Qed.

Lemma cancelsBeforeSpeaking_silent (effs : list Effect) :
  spoken effs = [] -> cancelsBeforeSpeaking effs.
Proof.
  intros Hsilent before text voice after ->.
  rewrite spoken_app in Hsilent; cbn in Hsilent.
  apply app_eq_nil in Hsilent; destruct Hsilent as [_ Habs]; discriminate.
Qed.

Lemma cancelsBeforeSpeaking_app (a b : list Effect) :
  cancelsBeforeSpeaking a -> cancelsBeforeSpeaking b -> cancelsBeforeSpeaking (a ++ b).
Proof.
  intros Ha Hb before text voice after Heq.
  apply app_eq_app in Heq.
  destruct Heq as (mid & [[Hleft Hright] | [Hleft Hright]]).
  - destruct mid as [|e mid]; cbn in Hright.
    + destruct (Hb [] text voice after (eq_sym Hright)) as (earlier & Hearlier).
      destruct earlier; discriminate.
    + injection Hright as <- ->.
      apply (Ha before text voice mid Hleft).
  - destruct (Hb mid text voice after Hright) as (earlier & ->).
    exists (a ++ earlier); rewrite Hleft, app_assoc; reflexivity.
Qed.

Lemma cancelsBeforeSpeaking_speakResponse (text : jsstring) (s : State) :
  cancelsBeforeSpeaking (effects (speakResponse props platform text s)).
Proof.
  unfold speakResponse.
  destruct (hasSpeechSynthesis platform); cbn.
  - intros before t v after Heq.
    destruct before as [|e [|e' before]]; cbn in Heq.
    + discriminate.
    + injection Heq as <- _ _ _; exists []; reflexivity.
    + injection Heq as _ _ Habs; destruct before; discriminate.
  - apply cancelsBeforeSpeaking_silent; reflexivity.
Qed.

(** X5. In every session, from any state, each utterance handed to the speech
    synthesiser comes directly after a cancel of whatever was being spoken:
    the widget never queues a reply behind another. *)
Theorem every_utterance_follows_a_cancel :
  forall (evs : list Event) (s s' : State) (effs : list Effect),
    run props platform evs s = Some (s', effs) ->
    cancelsBeforeSpeaking effs.
Proof.
  induction evs as [|ev evs IH]; intros s s' effs Hrun; cbn [run] in Hrun.
  - injection Hrun as _ <-; apply cancelsBeforeSpeaking_silent; reflexivity.
  - destruct (dispatch props platform ev s) as [[[c s1] e1]|] eqn:Hstep; [|discriminate].
    destruct (run props platform evs s1) as [[s2 e2]|] eqn:Hrest; [|discriminate].
    injection Hrun as _ <-.
    apply cancelsBeforeSpeaking_app; [|apply (IH s1 s2 e2 Hrest)].
    apply dispatch_Handled in Hstep.
    inversion Hstep; subst;
      try (apply cancelsBeforeSpeaking_silent; reflexivity).
    + apply cancelsBeforeSpeaking_speakResponse.
    + apply cancelsBeforeSpeaking_app;
        [apply cancelsBeforeSpeaking_silent; assumption
        |apply cancelsBeforeSpeaking_speakResponse].
Qed.

(** X6. Along every session in which no new session is started while a request
    is still pending, at most one request is outstanding, and none while
    the in-flight flag is clear. *)
Theorem one_request_at_a_time_without_restart
    (evs : list Event) (s : State) (effs : list Effect) :
  restartsOnlyWhenSettled props platform evs (mount platform) = true ->
  run props platform evs (mount platform) = Some (s, effs) ->
  length (outstanding s) <= 1 /\
  (requestInFlightRef s = false -> outstanding s = []).
Proof.
  intros Hquiet Hrun.
  apply (singleFlight_without_restart props platform evs (mount platform) s effs);
    [|exact Hquiet|exact Hrun].
  split; [apply Nat.le_0_l | reflexivity].
Qed.

End Sessions.

(* ===================================================================== *)
(** ** Replies, transcripts and controls *)
(* ===================================================================== *)

Lemma JS_eqb_eq (a b : jsstring) : JS.eqb a b = true <-> a = b.
Proof.
  revert b; induction a as [|x a IH]; intros [|y b]; cbn; split;
    try discriminate; try reflexivity.
  - intros H; apply andb_prop in H; destruct H as [Hx Hab].
    apply N.eqb_eq in Hx; apply IH in Hab; subst; reflexivity.
  - intros H; injection H as -> ->.
    rewrite N.eqb_refl; apply IH; reflexivity.
Qed.

Lemma or_else_truthy (a b : jsstring) :
  JS.truthy b = true -> JS.truthy (JS.or_else a b) = true.
Proof. intros Hb; unfold JS.or_else; destruct (JS.truthy a) eqn:Ha; assumption. Qed.

Lemma truthy_not_nil (a : jsstring) : JS.truthy a = true <-> a <> [].
Proof. destruct a; cbn; split; congruence. Qed.

Section Replies.

Variable props : Props.
Variable platform : Platform.

(** What the handler suspended on a request does once the rest of
    [getAIResponse] has produced [reply]. *)
Lemma settled_with_reply
    (s : State) (i : nat) (request : Request) (o : FetchOutcome)
    (reply : Value) (log : list Effect) :
  nth_error (outstanding s) i = Some request ->
  getAIResponse_resume o (setOutstanding (remove_nth i) s)
    = (Normal reply, setIsProcessing false (setOutstanding (remove_nth i) s), log) ->
  fetched log = [] ->
  spoken log = [] ->
  exists r,
    dispatch props platform (Settled i o) s = Some r /\
    completion r = Normal tt /\
    responseText (final r) = responseText s ++ aiPrefix ++ toString reply /\
    spoken (effects r) =
      (if hasSpeechSynthesis platform then [toString reply] else []) /\
    fetched (effects r) = [] /\
    outstanding (final r) = remove_nth i (outstanding s) /\
    requestInFlightRef (final r) = false /\
    isProcessing (final r) = false /\
    isListening (final r) = isListening s.
Proof.
  intros Hpending Hresume Hf Hsp.
  exists (onsettled props platform i o s); split.
  { cbn [dispatch]; rewrite Hpending; reflexivity. }
  unfold onsettled, bind, modify.
  rewrite (onresult_reply_run props platform _ _ _ _ _ Hresume).
  cbn [completion final effects fst snd app].
  destruct (speakResponse_effects props platform (toString reply)
              (setOutstanding (remove_nth i) s)) as (Hf' & _ & _ & Hsp').
  rewrite spoken_app, fetched_app, Hf, Hsp, Hf', Hsp'.
  repeat split.
Qed.


(** The handler for a success reply with a non-empty [response]. *)
Lemma relay_reply_is_displayed_and_spoken_aux
    (s : State) (i : nat) (request : Request) (status : N) (text : jsstring) :
  nth_error (outstanding s) i = Some request ->
  ok status = true ->
  text <> [] ->
  exists r,
    dispatch props platform (Settled i (Responded status (JsonValue (Some text)))) s
      = Some r /\
    completion r = Normal tt /\
    responseText (final r) = responseText s ++ aiPrefix ++ text /\
    spoken (effects r) = (if hasSpeechSynthesis platform then [text] else []) /\
    fetched (effects r) = [] /\
    outstanding (final r) = remove_nth i (outstanding s) /\
    requestInFlightRef (final r) = false /\
    isProcessing (final r) = false /\
    isListening (final r) = isListening s.
Proof.
  intros Hpending Hok Htext.
  apply (settled_with_reply s i request _ (Str text) []);
    try assumption; try reflexivity.
  unfold getAIResponse_resume, getAIResponse_body; rewrite Hok.
  destruct text; [congruence | reflexivity].
Qed.

(** X7. A success reply of the relay with a non-empty [response] is appended to
    the displayed text after ["\n\nAI: "] and spoken once, as it is; the
    request is no longer pending, both flags are cleared, no new request
    is issued and the session keeps listening if it was. *)
Theorem relay_reply_is_displayed_and_spoken
    (s : State) (i : nat) (request : Request) (status : N) (text : jsstring) :
  nth_error (outstanding s) i = Some request ->
  ok status = true ->
  text <> [] ->
  exists r,
    dispatch props platform (Settled i (Responded status (JsonValue (Some text)))) s
      = Some r /\
    completion r = Normal tt /\
    responseText (final r) = responseText s ++ aiPrefix ++ text /\
    spoken (effects r) = (if hasSpeechSynthesis platform then [text] else []) /\
    fetched (effects r) = [] /\
    outstanding (final r) = remove_nth i (outstanding s) /\
    requestInFlightRef (final r) = false /\
    isProcessing (final r) = false /\
    isListening (final r) = isListening s.
Proof. exact (relay_reply_is_displayed_and_spoken_aux s i request status text). Qed.

(** X8. A success reply whose [response] member is missing or the empty string
    is answered with the fallback line "I couldn't process that request.",
    displayed and spoken like a reply. *)
Theorem missing_reply_text_falls_back
    (s : State) (i : nat) (request : Request) (status : N)
    (response : option jsstring) :
  nth_error (outstanding s) i = Some request ->
  ok status = true ->
  response = None \/ response = Some [] ->
  exists r,
    dispatch props platform (Settled i (Responded status (JsonValue response))) s
      = Some r /\
    completion r = Normal tt /\
    responseText (final r) = responseText s ++ aiPrefix ++ fallbackReply /\
    spoken (effects r) = (if hasSpeechSynthesis platform then [fallbackReply] else []) /\
    fetched (effects r) = [] /\
    outstanding (final r) = remove_nth i (outstanding s) /\
    requestInFlightRef (final r) = false /\
    isProcessing (final r) = false /\
    isListening (final r) = isListening s.
Proof.
  intros Hpending Hok Hmissing.
  apply (settled_with_reply s i request _ (Str fallbackReply) []);
    try assumption; try reflexivity.
  unfold getAIResponse_resume, getAIResponse_body; rewrite Hok.
  destruct Hmissing as [-> | ->]; reflexivity.
Qed.

(** X9. When the relay cannot be reached (the [fetch] rejects), or its success
    body cannot be read as JSON or is [null], the handler ends normally and
    displays and speaks the apology line followed by the message of the
    error; the session keeps listening if it was, and nothing is retried. *)
Theorem unreachable_relay_is_apologised
    (s : State) (i : nat) (request : Request) (o : FetchOutcome) (msg : jsstring) :
  nth_error (outstanding s) i = Some request ->
  o = Rejected msg \/
  (exists status, ok status = true /\
     (o = Responded status (Unparsable msg) \/ o = Responded status (JsonNull msg))) ->
  exists r,
    dispatch props platform (Settled i o) s = Some r /\
    completion r = Normal tt /\
    responseText (final r) = responseText s ++ aiPrefix ++ apologyPrefix ++ msg /\
    spoken (effects r) =
      (if hasSpeechSynthesis platform then [apologyPrefix ++ msg] else []) /\
    fetched (effects r) = [] /\
    outstanding (final r) = remove_nth i (outstanding s) /\
    requestInFlightRef (final r) = false /\
    isProcessing (final r) = false /\
    isListening (final r) = isListening s.
Proof.
  intros Hpending Hfailed.
  apply (settled_with_reply s i request o (Str (apologyPrefix ++ msg))
           [ConsoleError (JS.lit "Error getting AI response:") msg]);
    try assumption; try reflexivity.
  unfold getAIResponse_resume, getAIResponse_body.
  destruct Hfailed as [-> | (status & Hok & [-> | ->])];
    [| rewrite Hok ..]; reflexivity.
Qed.


Lemma join_snoc (earlier : list Segment) (last : Segment) :
  JS.join (map transcript (earlier ++ [last]))
    = JS.join (map transcript earlier) ++ transcript last.
Proof.
  unfold JS.join; rewrite map_app, concat_app; cbn; rewrite app_nil_r; reflexivity.
Qed.

(** X11. A final segment that finds the flag clear and a transcript that is not
    blank issues exactly one request. Its message is the text of all
    segments of the event joined in order, untrimmed, so it repeats what
    earlier segments of the recognition session said; it goes to the
    normalised endpoint with the configured system prompt. The handler
    marks the widget as processing, sets the flag and speaks nothing yet. *)
Theorem request_carries_the_whole_transcript
    (earlier : list Segment) (last : Segment) (s : State) :
  isFinal last = true ->
  requestInFlightRef s = false ->
  forallb JS.isWhiteSpace (JS.join (map transcript (earlier ++ [last]))) = false ->
  let r := onresult props platform (earlier ++ [last]) s in
  exists request,
    fetched (effects r) = [request] /\
    message request = JS.join (map transcript earlier) ++ transcript last /\
    url request = endpointOf (apiEndpoint props) /\
    bodySystemPrompt request = systemPrompt props /\
    completion r = Normal tt /\
    outstanding (final r) = outstanding s ++ [request] /\
    responseText (final r) = message request /\
    isProcessing (final r) = true /\
    requestInFlightRef (final r) = true /\
    spoken (effects r) = [].
Proof.
  intros Hfinal Hclear Hnonblank r; subst r.
  rewrite (onresult_fetch_run props platform earlier last s Hfinal Hclear Hnonblank).
  eexists; split; [reflexivity|].
  cbn; rewrite join_snoc; repeat split.
Qed.

(** X12. A result whose last segment is not final only replaces the displayed
    text by the joined transcript of the event (what was displayed before,
    an earlier reply included, is gone): no request, no speech, and every
    other part of the state stays as it was, whatever the earlier segments
    of the event are. *)
Theorem interim_result_only_replaces_the_display
    (earlier : list Segment) (last : Segment) (s : State) :
  isFinal last = false ->
  let r := onresult props platform (earlier ++ [last]) s in
  completion r = Normal tt /\
  effects r = [] /\
  responseText (final r) = JS.join (map transcript earlier) ++ transcript last /\
  isListening (final r) = isListening s /\
  isProcessing (final r) = isProcessing s /\
  requestInFlightRef (final r) = requestInFlightRef s /\
  outstanding (final r) = outstanding s.
Proof.
  intros Hinterim r; subst r.
  rewrite (onresult_display_only props platform earlier last s)
    by (rewrite Hinterim; reflexivity).
  cbn; rewrite join_snoc; repeat split.
Qed.




(** X14. Closing the overlay does not cancel a pending request: when its reply
    arrives afterwards it is still appended to the text and spoken,
    although the session is no longer listening. *)
Theorem closing_does_not_cancel_the_pending_reply
    (s : State) (i : nat) (request : Request) (status : N) (text : jsstring) :
  nth_error (outstanding s) i = Some request ->
  ok status = true ->
  text <> [] ->
  exists s' effs,
    run props platform
      [Close; Settled i (Responded status (JsonValue (Some text)))] s
      = Some (s', effs) /\
    isListening s' = false /\
    responseText s' = responseText s ++ aiPrefix ++ text /\
    spoken effs = (if hasSpeechSynthesis platform then [text] else []) /\
    fetched effs = [].
Proof.
  intros Hpending Hok Htext.
  cbn [run].
  destruct (dispatch props platform Close s) as [[[c s1] e1]|] eqn:Hclose;
    [|discriminate].
  assert (Hs1 : outstanding s1 = outstanding s /\ responseText s1 = responseText s /\
                isListening s1 = false /\ spoken e1 = [] /\ fetched e1 = []).
  { apply dispatch_Handled in Hclose; inversion Hclose; subst; cbn; repeat split. }
  destruct Hs1 as (Hout & Hdisplay & Hl & Hsp & Hf).
  rewrite <- Hout in Hpending.
  destruct (relay_reply_is_displayed_and_spoken_aux s1 i request status text
              Hpending Hok Htext)
    as (r & Hr & _ & Htxt & Hspoken & Hfetched & _ & _ & _ & Hl').
  rewrite Hr; destruct r as [[c2 s2] e2]; cbn in *.
  do 2 eexists; split; [reflexivity|].
  rewrite app_nil_r, spoken_app, fetched_app, Hsp, Hf, Hspoken, Hfetched, Htxt,
    Hdisplay, Hl', Hl.
  repeat split.
Qed.

(** X15. Where the platform can speak, [speakResponse] cancels and then speaks
    the text once. The utterance uses the voice named by [voiceName] when
    that name is not empty and is the name of an installed voice (exact
    match), and the platform's default voice in every other case. *)
Theorem configured_voice_is_used_when_installed (text : jsstring) (s : State) :
  hasSpeechSynthesis platform = true ->
  (voiceName props <> [] /\ In (voiceName props) (voices platform) ->
   speakResponse props platform text s =
     (Normal tt, s, [SpeechCancel; SpeechSpeak text (Some (voiceName props))])) /\
  (voiceName props = [] \/ ~ In (voiceName props) (voices platform) ->
   speakResponse props platform text s =
     (Normal tt, s, [SpeechCancel; SpeechSpeak text None])).
Proof.
  intros Hsynth; unfold speakResponse; rewrite Hsynth.
  split.
  - intros [Hname Hin].
    apply truthy_not_nil in Hname; rewrite Hname.
    destruct (find (fun v => JS.eqb v (voiceName props)) (voices platform))
      as [v|] eqn:Hfind.
    + apply find_some in Hfind; destruct Hfind as [_ Heq].
      apply JS_eqb_eq in Heq; subst v; reflexivity.
    + apply (find_none _ _ Hfind) in Hin.
      rewrite (proj2 (JS_eqb_eq _ _) eq_refl) in Hin; discriminate.
  - intros [Hname | Hnot].
    + rewrite Hname; reflexivity.
    + destruct (JS.truthy (voiceName props)); [|reflexivity].
      destruct (find (fun v => JS.eqb v (voiceName props)) (voices platform))
        as [v|] eqn:Hfind; [|reflexivity].
      apply find_some in Hfind; destruct Hfind as [Hin Heq].
      apply JS_eqb_eq in Heq; subst v; contradiction.
Qed.

End Replies.

(** X16. Normalising an endpoint twice is the same as normalising it once: the
    result of [endpointOf] already carries a scheme. *)
Theorem endpointOf_is_idempotent (apiEndpoint : jsstring) :
  endpointOf (endpointOf apiEndpoint) = endpointOf apiEndpoint.
Proof.
  unfold endpointOf at 2 3.
  destruct (JS.startsWith apiEndpoint (JS.lit "http://")) eqn:Hhttp;
    destruct (JS.startsWith apiEndpoint (JS.lit "https://")) eqn:Hhttps;
    cbn [negb andb]; unfold endpointOf;
    rewrite ?Hhttp, ?Hhttps, ?JSFacts.startsWith_app, ?andb_false_r;
    reflexivity.
Qed.

(** X17. [getPositionStyles] anchors the widget, for every value of [position],
    to exactly one vertical and one horizontal edge at 2rem; the four
    options of the control give four different corners, and every other
    value gives what "bottom-right" gives. *)
Theorem getPositionStyles_picks_one_corner (position : jsstring) :
  let styles := getPositionStyles position in
  ((cssTop styles = Some twoRem /\ cssBottom styles = None) \/
   (cssTop styles = None /\ cssBottom styles = Some twoRem)) /\
  ((cssLeft styles = Some twoRem /\ cssRight styles = None) \/
   (cssLeft styles = None /\ cssRight styles = Some twoRem)) /\
  (~ In position positionOptions ->
   styles = getPositionStyles (JS.lit "bottom-right")) /\
  (forall other,
     In position positionOptions -> In other positionOptions ->
     getPositionStyles other = styles -> other = position).
Proof.
  cbv zeta; repeat split.
  - unfold getPositionStyles.
    repeat match goal with |- context [if ?b then _ else _] => destruct b end;
      cbn; auto.
  - unfold getPositionStyles.
    repeat match goal with |- context [if ?b then _ else _] => destruct b end;
      cbn; auto.
  - intros Hnot; unfold getPositionStyles at 1.
    destruct (JS.eqb position (JS.lit "bottom-left")) eqn:Hbl;
      [apply JS_eqb_eq in Hbl; subst position; exfalso; apply Hnot; cbn; tauto|].
    destruct (JS.eqb position (JS.lit "top-right")) eqn:Htr;
      [apply JS_eqb_eq in Htr; subst position; exfalso; apply Hnot; cbn; tauto|].
    destruct (JS.eqb position (JS.lit "top-left")) eqn:Htl;
      [apply JS_eqb_eq in Htl; subst position; exfalso; apply Hnot; cbn; tauto|].
    reflexivity.
  - intros other Hp Ho Hsame.
    cbn in Hp, Ho.
    repeat match goal with
           | H : _ \/ _ |- _ => destruct H as [<- | H]
           | H : False |- _ => destruct H
           end;
      first [reflexivity | discriminate Hsame].
Qed.

(* ===================================================================== *)
(** ** The relay route, and the widget behind it *)
(* ===================================================================== *)

(** X18. A request whose [message] is missing or the empty string is answered
    400 "Message is required", whatever the provider would have said. *)
Theorem missing_message_is_answered_400
    (req : Relay.ChatRequest) (upstream : Relay.Upstream) :
  Relay.message req = None \/ Relay.message req = Some [] ->
  Relay.chat req upstream =
    {| Relay.status := 400;
       Relay.body := Relay.ErrorJson (JS.lit "Message is required") |}.
Proof.
  intros [Hmissing | Hempty]; unfold Relay.chat, Relay.chat_try;
    [rewrite Hmissing | rewrite Hempty]; reflexivity.
Qed.

(** X19. The status tells the two reply shapes apart: the route answers with
    [{"response": ...}] exactly when the status is 200, with
    [{"error": ...}] otherwise, and a response it sends is never the empty
    string. *)
Theorem reply_is_a_response_exactly_when_status_is_200
    (req : Relay.ChatRequest) (upstream : Relay.Upstream) :
  let reply := Relay.chat req upstream in
  (Relay.isErrorReply reply = false <-> Relay.status reply = 200%N) /\
  (forall response, Relay.body reply = Relay.ResponseJson response -> response <> []).
Proof.
  cbv zeta; unfold Relay.chat, Relay.chat_try, Relay.isErrorReply.
  destruct (JS.truthy (Relay.member_or_empty (Relay.message req)));
    cbn [negb]; [|split; [split; discriminate | discriminate]].
  destruct upstream as [msg | status body];
    [split; [split; discriminate | discriminate]|].
  destruct (ok status) eqn:Hok; cbn [negb].
  - destruct body as [msg | msg | content]; cbn;
      try (split; [split; discriminate | discriminate]).
    split; [split; reflexivity|].
    intros response Hbody; injection Hbody as <-.
    apply truthy_not_nil, or_else_truthy; reflexivity.
  - assert (Hnot : status <> 200%N) by (intros ->; discriminate).
    destruct body; cbn; split; try discriminate; split; try discriminate;
      intros; congruence.
Qed.


(* ===================================================================== *)
(** ** The theorems above at concrete sessions *)
(* ===================================================================== *)

Lemma no_pending_request_means_not_processing_witness :
  exists s effs,
    run defaultProps browser oneExchange (mount browser) = Some (s, effs) /\
    outstanding s = [] /\
    isProcessing s = false /\ requestInFlightRef s = false.
Proof.
  do 2 eexists; split; [vm_compute; reflexivity|]; split; [reflexivity|].
  eapply (no_pending_request_means_not_processing defaultProps browser oneExchange);
    vm_compute; reflexivity.
Defined.

Lemma requests_only_answer_final_results_witness :
  exists s effs,
    run defaultProps browser (restartBeforeReply ++ secondSession) (mount browser)
      = Some (s, effs) /\
    length (fetched effs) <= finalResults (restartBeforeReply ++ secondSession).
Proof.
  do 2 eexists; split; [vm_compute; reflexivity|].
  eapply (requests_only_answer_final_results defaultProps browser
            (restartBeforeReply ++ secondSession) (mount browser));
    vm_compute; reflexivity.
Defined.


Lemma teardown_releases_the_microphone_witness :
  run defaultProps browser startAndAsk (mount browser)
    = Some (awaitingReply,
            [RecognitionStart;
             ConsoleLog (JS.lit "Calling API endpoint:") (url (requestFor "hi"));
             Fetch (requestFor "hi")]) /\
  unmount awaitingReply = (Normal tt, awaitingReply, [RecognitionStop]) /\
  (isListening awaitingReply = true -> stops (effects (unmount awaitingReply)) = 1).
Proof.
  split; [reflexivity|].
  apply (teardown_releases_the_microphone defaultProps browser startAndAsk
           awaitingReply _ eq_refl).
Defined.

Lemma every_utterance_follows_a_cancel_witness :
  exists s effs,
    run defaultProps browser oneExchange (mount browser) = Some (s, effs) /\
    spoken effs = [JS.lit "Hi there"] /\
    cancelsBeforeSpeaking effs.
Proof.
  do 2 eexists; split; [vm_compute; reflexivity|]; split; [reflexivity|].
  eapply (every_utterance_follows_a_cancel defaultProps browser oneExchange
            (mount browser)); vm_compute; reflexivity.
Defined.

Lemma one_request_at_a_time_without_restart_witness :
  exists s effs,
    restartsOnlyWhenSettled defaultProps browser startAndAsk (mount browser) = true /\
    run defaultProps browser startAndAsk (mount browser) = Some (s, effs) /\
    length (outstanding s) <= 1 /\
    (requestInFlightRef s = false -> outstanding s = []).
Proof.
  do 2 eexists; split; [reflexivity|]; split; [vm_compute; reflexivity|].
  eapply (one_request_at_a_time_without_restart defaultProps browser startAndAsk);
    vm_compute; reflexivity.
Defined.

Lemma relay_reply_is_displayed_and_spoken_witness :
  exists r,
    dispatch defaultProps browser (Settled 0 (answered "Hi there")) awaitingReply
      = Some r /\
    responseText (final r) = JS.lit "hi" ++ aiPrefix ++ JS.lit "Hi there" /\
    spoken (effects r) = [JS.lit "Hi there"].
Proof.
  destruct (relay_reply_is_displayed_and_spoken defaultProps browser awaitingReply 0
              (requestFor "hi") 200 (JS.lit "Hi there") eq_refl eq_refl
              ltac:(discriminate))
    as (r & Hr & _ & Htext & Hspoken & _).
  exists r; repeat split; assumption.
Defined.

Lemma missing_reply_text_falls_back_witness :
  exists r,
    dispatch defaultProps browser (Settled 0 (Responded 200 (JsonValue None)))
      awaitingReply = Some r /\
    responseText (final r) = JS.lit "hi" ++ aiPrefix ++ fallbackReply /\
    spoken (effects r) = [fallbackReply].
Proof.
  destruct (missing_reply_text_falls_back defaultProps browser awaitingReply 0
              (requestFor "hi") 200 None eq_refl eq_refl (or_introl eq_refl))
    as (r & Hr & _ & Htext & Hspoken & _).
  exists r; repeat split; assumption.
Defined.

Lemma unreachable_relay_is_apologised_witness :
  exists r,
    dispatch defaultProps browser (Settled 0 (Rejected (JS.lit "Failed to fetch")))
      awaitingReply = Some r /\
    completion r = Normal tt /\
    spoken (effects r) = [apologyPrefix ++ JS.lit "Failed to fetch"] /\
    isListening (final r) = true.
Proof.
  destruct (unreachable_relay_is_apologised defaultProps browser awaitingReply 0
              (requestFor "hi") (Rejected (JS.lit "Failed to fetch"))
              (JS.lit "Failed to fetch") eq_refl (or_introl eq_refl))
    as (r & Hr & Hc & _ & Hspoken & _ & _ & _ & _ & Hl).
  exists r; repeat split; assumption.
Defined.


Lemma request_carries_the_whole_transcript_witness :
  exists request,
    fetched (effects (onresult defaultProps browser
                        ([finalSegment "turn on "] ++ [finalSegment "the light "])
                        listening)) = [request] /\
    message request = JS.lit "turn on the light ".
Proof.
  destruct (request_carries_the_whole_transcript defaultProps browser
              [finalSegment "turn on "] (finalSegment "the light ") listening
              eq_refl eq_refl eq_refl)
    as (request & Hf & Hm & _).
  exists request; split; [exact Hf | exact Hm].
Defined.

Lemma interim_result_only_replaces_the_display_witness :
  let r := onresult defaultProps browser
             ([finalSegment "hi"] ++ [{| transcript := JS.lit " the"; isFinal := false |}])
             listening in
  effects r = [] /\ responseText (final r) = JS.lit "hi the" /\
  requestInFlightRef (final r) = false.
Proof.
  destruct (interim_result_only_replaces_the_display defaultProps browser
              [finalSegment "hi"] {| transcript := JS.lit " the"; isFinal := false |}
              listening eq_refl)
    as (_ & He & Ht & _ & _ & Hf & _).
  exact (conj He (conj Ht Hf)).
Defined.


Lemma closing_does_not_cancel_the_pending_reply_witness :
  exists s' effs,
    run defaultProps browser [Close; Settled 0 (answered "Hi there")] awaitingReply
      = Some (s', effs) /\
    isListening s' = false /\
    spoken effs = [JS.lit "Hi there"].
Proof.
  destruct (closing_does_not_cancel_the_pending_reply defaultProps browser
              awaitingReply 0 (requestFor "hi") 200 (JS.lit "Hi there")
              eq_refl eq_refl ltac:(discriminate))
    as (s' & effs & Hrun & Hl & _ & Hsp & _).
  exists s', effs; repeat split; assumption.
Defined.

Lemma configured_voice_is_used_when_installed_witness :
  speakResponse samanthaProps browserWithVoices (JS.lit "Hi there") listening =
    (Normal tt, listening,
     [SpeechCancel; SpeechSpeak (JS.lit "Hi there") (Some (JS.lit "Samantha"))]).
Proof.
  apply (configured_voice_is_used_when_installed samanthaProps browserWithVoices
           (JS.lit "Hi there") listening eq_refl).
  split; [discriminate | cbn; tauto].
Defined.

Lemma missing_message_is_answered_400_witness :
  Relay.chat {| Relay.message := None; Relay.systemPrompt := None |} gatewayError =
    {| Relay.status := 400;
       Relay.body := Relay.ErrorJson (JS.lit "Message is required") |}.
Proof.
  apply (missing_message_is_answered_400
           {| Relay.message := None; Relay.systemPrompt := None |} gatewayError).
  left; reflexivity.
Defined.

